(** * Adaptive inventory agent: a shallow embedding of
    [core_modules/inventory_agent.py] and the properties of its decision
    engine.

    Numbers.  The Python code mixes [int] and [float].  Quantities that the
    code only ever builds from integer literals and integer arithmetic
    (order quantities after [int(...)], order costs, counters, the
    satisfaction score, [max_order_size], [lead_time_days]) are [Z].
    Everything that can hold a float (stock, demand, revenue, reorder
    points and quantities, running means) is an exact rational [Q]: the
    embedding idealises IEEE doubles as rationals, so rounding, [nan] and
    [inf] are outside the model.  Equality on [Q] is [==] ([Qeq]).
    Statements about these quantities are therefore kept to what rounding
    preserves - orderings, signs, integer counters, which branch is taken,
    which entries exist - and where the exact value of a rounded result
    matters, the source line is replayed on binary64 ([running_mean_double]
    below).

    Randomness.  [np.random.normal(0, abs(predicted_demand) * 0.1)] is the
    only source of non-determinism; the drawn value is an explicit argument
    ([demand_variance]) of the embedded function, so that a run with
    "zero noise" is the run in which every draw is [0]. *)

From Stdlib Require Import ZArith QArith Qminmax Qround Lqa String List Lia.
From Stdlib Require Import Floats.
From stdpp Require Import gmap strings.
Import ListNotations.

Local Open Scope string_scope.
Local Open Scope list_scope.
Local Open Scope Z_scope.
Local Open Scope Q_scope.

(** ** Python helpers *)

(** [sub in s] on Python strings. *)
Fixpoint contains (sub s : string) : bool :=
  if String.prefix sub s then true
  else match s with
       | EmptyString => false
       | String _ t => contains sub t
       end.

(** [int(q)]: truncation toward zero. *)
Definition int (q : Q) : Z := Z.quot (Qnum q) (Zpos (Qden q)).

(** [l[-n:]] for a positive [n]. *)
Definition last_n {A} (n : nat) (l : list A) : list A :=
  skipn (length l - n) l.

Definition Qsum (l : list Q) : Q := fold_right Qplus 0 l.

(** [np.mean] of a non-empty list. *)
Definition np_mean (l : list Q) : Q := Qsum l / inject_Z (Z.of_nat (length l)).

(** [a > b] as a boolean test. *)
Definition Qgt_bool (a b : Q) : bool := negb (Qle_bool a b).

(** ** Data model *)

Definition Date := Z.

Inductive Action := no_action | intelligent_reorder | stockout.

(** The [reason] strings are f-strings over two templates; the model keeps
    the template and its argument. *)
Inductive Reason :=
| reason_empty
| reason_stockout (unfulfilled : Q)
| reason_smart_reorder (notes : string).

(** The dictionary returned by [analyze_scenario_and_adapt]. *)
Record Adaptation := {
  reorder_point : Q;
  reorder_quantity : Q;
  urgency_level : string;
  strategy_notes : string
}.

(** One entry of [decisions_log].  The key ['actual_demand'] is set on every
    decision before it is appended (line 152), so it is a plain field. *)
Record Decision := {
  d_date : Date;
  d_scenario : string;
  d_predicted_demand : Q;
  d_current_stock_before : Q;
  d_urgency_level : string;
  d_strategy_notes : string;
  d_adaptive_reorder_point : Q;
  d_adaptive_reorder_quantity : Q;
  d_action : Action;
  d_order_quantity : Z;
  d_reason : Reason;
  d_current_stock_after : Q;
  d_actual_demand : Q;
  d_demand_fulfilled : Q
}.

(** One entry of [orders_placed]. *)
Record Order := {
  o_date : Date;
  o_quantity : Z;
  o_scenario : string;
  o_urgency : string;
  o_cost : Z;
  o_lead_time_expected : Z
}.

(** One value of the [scenario_memory] dictionary. *)
Record Memory := {
  encounters : Z;
  avg_demand : Q;
  max_demand : Q;
  successful_strategies : list string
}.

(** The attributes of an [IntelligentInventoryAgent]. *)
Record Agent := {
  current_stock : Q;
  base_reorder_point : Q;
  base_reorder_quantity : Q;
  orders_placed : list Order;
  stockouts : Z;
  decisions_log : list Decision;
  scenario_memory : gmap string Memory;
  total_revenue : Q;
  total_costs : Z;
  customer_satisfaction_score : Z;
  safety_stock_multiplier : Q;
  max_order_size : Z;
  lead_time_days : Z
}.

(** [__init__]. *)
Definition IntelligentInventoryAgent
    (initial_stock base_reorder_point base_reorder_quantity : Q) : Agent :=
  {| current_stock := initial_stock;
     base_reorder_point := base_reorder_point;
     base_reorder_quantity := base_reorder_quantity;
     orders_placed := [];
     stockouts := 0;
     decisions_log := [];
     scenario_memory := ∅;
     total_revenue := 0;
     total_costs := 0;
     customer_satisfaction_score := 100;
     safety_stock_multiplier := 12 # 10;
     max_order_size := 5000;
     lead_time_days := 3 |}.

(** The constructor with its default arguments. *)
Definition default_agent : Agent := IntelligentInventoryAgent 2000 300 800.

(** Attribute assignments. *)
Definition set_current_stock (v : Q) (a : Agent) : Agent :=
  {| current_stock := v;
     base_reorder_point := base_reorder_point a;
     base_reorder_quantity := base_reorder_quantity a;
     orders_placed := orders_placed a;
     stockouts := stockouts a;
     decisions_log := decisions_log a;
     scenario_memory := scenario_memory a;
     total_revenue := total_revenue a;
     total_costs := total_costs a;
     customer_satisfaction_score := customer_satisfaction_score a;
     safety_stock_multiplier := safety_stock_multiplier a;
     max_order_size := max_order_size a;
     lead_time_days := lead_time_days a |}.

Definition set_orders_placed (v : list Order) (a : Agent) : Agent :=
  {| current_stock := current_stock a;
     base_reorder_point := base_reorder_point a;
     base_reorder_quantity := base_reorder_quantity a;
     orders_placed := v;
     stockouts := stockouts a;
     decisions_log := decisions_log a;
     scenario_memory := scenario_memory a;
     total_revenue := total_revenue a;
     total_costs := total_costs a;
     customer_satisfaction_score := customer_satisfaction_score a;
     safety_stock_multiplier := safety_stock_multiplier a;
     max_order_size := max_order_size a;
     lead_time_days := lead_time_days a |}.

Definition set_stockouts (v : Z) (a : Agent) : Agent :=
  {| current_stock := current_stock a;
     base_reorder_point := base_reorder_point a;
     base_reorder_quantity := base_reorder_quantity a;
     orders_placed := orders_placed a;
     stockouts := v;
     decisions_log := decisions_log a;
     scenario_memory := scenario_memory a;
     total_revenue := total_revenue a;
     total_costs := total_costs a;
     customer_satisfaction_score := customer_satisfaction_score a;
     safety_stock_multiplier := safety_stock_multiplier a;
     max_order_size := max_order_size a;
     lead_time_days := lead_time_days a |}.

Definition set_decisions_log (v : list Decision) (a : Agent) : Agent :=
  {| current_stock := current_stock a;
     base_reorder_point := base_reorder_point a;
     base_reorder_quantity := base_reorder_quantity a;
     orders_placed := orders_placed a;
     stockouts := stockouts a;
     decisions_log := v;
     scenario_memory := scenario_memory a;
     total_revenue := total_revenue a;
     total_costs := total_costs a;
     customer_satisfaction_score := customer_satisfaction_score a;
     safety_stock_multiplier := safety_stock_multiplier a;
     max_order_size := max_order_size a;
     lead_time_days := lead_time_days a |}.

Definition set_scenario_memory (v : gmap string Memory) (a : Agent) : Agent :=
  {| current_stock := current_stock a;
     base_reorder_point := base_reorder_point a;
     base_reorder_quantity := base_reorder_quantity a;
     orders_placed := orders_placed a;
     stockouts := stockouts a;
     decisions_log := decisions_log a;
     scenario_memory := v;
     total_revenue := total_revenue a;
     total_costs := total_costs a;
     customer_satisfaction_score := customer_satisfaction_score a;
     safety_stock_multiplier := safety_stock_multiplier a;
     max_order_size := max_order_size a;
     lead_time_days := lead_time_days a |}.

Definition set_total_revenue (v : Q) (a : Agent) : Agent :=
  {| current_stock := current_stock a;
     base_reorder_point := base_reorder_point a;
     base_reorder_quantity := base_reorder_quantity a;
     orders_placed := orders_placed a;
     stockouts := stockouts a;
     decisions_log := decisions_log a;
     scenario_memory := scenario_memory a;
     total_revenue := v;
     total_costs := total_costs a;
     customer_satisfaction_score := customer_satisfaction_score a;
     safety_stock_multiplier := safety_stock_multiplier a;
     max_order_size := max_order_size a;
     lead_time_days := lead_time_days a |}.

Definition set_total_costs (v : Z) (a : Agent) : Agent :=
  {| current_stock := current_stock a;
     base_reorder_point := base_reorder_point a;
     base_reorder_quantity := base_reorder_quantity a;
     orders_placed := orders_placed a;
     stockouts := stockouts a;
     decisions_log := decisions_log a;
     scenario_memory := scenario_memory a;
     total_revenue := total_revenue a;
     total_costs := v;
     customer_satisfaction_score := customer_satisfaction_score a;
     safety_stock_multiplier := safety_stock_multiplier a;
     max_order_size := max_order_size a;
     lead_time_days := lead_time_days a |}.

Definition set_customer_satisfaction_score (v : Z) (a : Agent) : Agent :=
  {| current_stock := current_stock a;
     base_reorder_point := base_reorder_point a;
     base_reorder_quantity := base_reorder_quantity a;
     orders_placed := orders_placed a;
     stockouts := stockouts a;
     decisions_log := decisions_log a;
     scenario_memory := scenario_memory a;
     total_revenue := total_revenue a;
     total_costs := total_costs a;
     customer_satisfaction_score := v;
     safety_stock_multiplier := safety_stock_multiplier a;
     max_order_size := max_order_size a;
     lead_time_days := lead_time_days a |}.

(** ** The decision engine *)

Definition fresh_memory : Memory :=
  {| encounters := 0; avg_demand := 0; max_demand := 0;
     successful_strategies := [] |}.

(** [_update_scenario_memory]: the entry is created when the label is not a
    key yet, then updated in place.  The running mean of line 108 is exact
    here; in the code each of its three operations rounds
    ([running_mean_double] below replays them).  The counter, the maximum
    and the urgency history involve no rounding. *)
Definition _update_scenario_memory
    (a : Agent) (scenario_name : string) (demand : Q) (urgency : string)
  : Agent :=
  let memory := default fresh_memory (scenario_memory a !! scenario_name) in
  let n := (encounters memory + 1)%Z in
  let memory' :=
    {| encounters := n;
       avg_demand :=
         (avg_demand memory * inject_Z (n - 1) + demand) / inject_Z n;
       max_demand := Qmax (max_demand memory) demand;
       successful_strategies := successful_strategies memory ++ [urgency] |} in
  set_scenario_memory (<[scenario_name := memory']> (scenario_memory a)) a.

(** Line 108 on its own, over the demands recorded under one label, for
    any number type: the counter is an integer, and each of the product,
    the sum and the quotient is one operation of the number type. *)
Definition running_memory_with {N : Type} (zero : N) (of_int : Z -> N)
    (add mul div : N -> N -> N) (demands : list N) : Z * N :=
  fold_left
    (fun memory demand =>
       let n := (fst memory + 1)%Z in
       (n, div (add (mul (snd memory) (of_int (n - 1)%Z)) demand) (of_int n)))
    demands (0%Z, zero).





(** The [if]/[elif] cascade of [analyze_scenario_and_adapt], without its
    side effect.  The factors 2.5, 1.8, 0.7, 0.6, 1.5, 0.5 and 0.4 are the
    decimal fractions the literals denote; the code multiplies by the
    nearest doubles, so a product can differ from the value here in its
    last place.  Which tier and note a label gets, and that the point and
    quantity depend on the base values and the label only, do not depend on
    that. *)
Definition adapt (a : Agent) (scenario_name : string) : Adaptation :=
  if contains "Viral" scenario_name || contains "Celebrity" scenario_name then
    {| reorder_point := base_reorder_point a * (25 # 10);
       reorder_quantity :=
         Qmin (base_reorder_quantity a * 3) (inject_Z (max_order_size a));
       urgency_level := "Critical - Viral Event";
       strategy_notes :=
         "Preparing for viral demand spike - maximizing availability" |}
  else if contains "Black_Friday" scenario_name then
    {| reorder_point := base_reorder_point a * 3;
       reorder_quantity :=
         Qmin (base_reorder_quantity a * 4) (inject_Z (max_order_size a));
       urgency_level := "Critical - Black Friday";
       strategy_notes :=
         "Black Friday preparation - ensuring maximum stock availability" |}
  else if contains "Supply_Chain_Disruption" scenario_name then
    {| reorder_point := base_reorder_point a * (18 # 10);
       reorder_quantity := base_reorder_quantity a * (7 # 10);
       urgency_level := "Caution - Supply Issues";
       strategy_notes :=
         "Supply chain disruption - smaller orders to reduce risk" |}
  else if contains "Economic_Downturn" scenario_name then
    {| reorder_point := base_reorder_point a * (7 # 10);
       reorder_quantity := base_reorder_quantity a * (6 # 10);
       urgency_level := "Conservative - Economic Risk";
       strategy_notes :=
         "Economic downturn - minimizing inventory investment" |}
  else if contains "Competitor_Stockout" scenario_name then
    {| reorder_point := base_reorder_point a * (15 # 10);
       reorder_quantity :=
         Qmin (base_reorder_quantity a * 2) (inject_Z (max_order_size a));
       urgency_level := "Opportunity - Market Capture";
       strategy_notes :=
         "Competitor stockout - capturing increased market share" |}
  else if contains "Post_Holiday" scenario_name then
    {| reorder_point := base_reorder_point a * (5 # 10);
       reorder_quantity := base_reorder_quantity a * (4 # 10);
       urgency_level := "Clearance Mode";
       strategy_notes := "Post-holiday clearance - minimal restocking" |}
  else
    {| reorder_point := base_reorder_point a;
       reorder_quantity := base_reorder_quantity a;
       urgency_level := "Normal";
       strategy_notes := "Standard operations" |}.

(** [analyze_scenario_and_adapt]: the adapted parameters, and the agent with
    its scenario memory updated. *)
Definition analyze_scenario_and_adapt
    (a : Agent) (scenario_name : string) (predicted_demand : Q)
    (current_date : Date) : Agent * Adaptation :=
  let adaptation := adapt a scenario_name in
  (_update_scenario_memory a scenario_name predicted_demand
     (urgency_level adaptation),
   adaptation).

(** [_process_demand]: returns [(fulfilled, stockout)].  The two
    subtractions ([current_stock -= actual_demand],
    [actual_demand - current_stock]) and the revenue product are exact
    here and rounded in the code; the comparison, the branch taken, the
    values copied without arithmetic ([fulfilled], the stock set to 0) and
    the signs of the differences are the same in both. *)
Definition _process_demand (a : Agent) (actual_demand : Q)
  : Agent * (Q * Q) :=
  if Qle_bool actual_demand (current_stock a) then
    let a1 := set_current_stock (current_stock a - actual_demand) a in
    let a2 := set_total_revenue (total_revenue a1 + actual_demand * 50) a1 in
    (a2, (actual_demand, 0))
  else
    let fulfilled := current_stock a in
    let stockout_amount := actual_demand - fulfilled in
    let a1 := set_current_stock 0 a in
    let a2 := set_total_revenue (total_revenue a1 + fulfilled * 50) a1 in
    (a2, (fulfilled, stockout_amount)).

(** The coverage selected on lines 204-209; the string tested is the
    function's [scenario_name] parameter. *)
Definition weeks_coverage (scenario_name : string) : Q :=
  if contains "Critical" scenario_name then 4
  else if contains "Conservative" scenario_name then 15 # 10
  else 25 # 10.

(** [_calculate_smart_order_quantity]. *)
Definition _calculate_smart_order_quantity
    (a : Agent) (base_quantity predicted_demand : Q) (scenario_name : string)
  : Z :=
  let order_quantity := base_quantity in
  let order_quantity :=
    if (7 <? length (decisions_log a))%nat then
      let recent_demand := map d_actual_demand (last_n 7 (decisions_log a)) in
      let avg_weekly_demand :=
        match recent_demand with
        | [] => predicted_demand * 7
        | _ => np_mean recent_demand * 7
        end in
      let demand_based_quantity :=
        avg_weekly_demand * weeks_coverage scenario_name in
      Qmax order_quantity demand_based_quantity
    else order_quantity in
  let order_quantity := Qmin order_quantity (inject_Z (max_order_size a)) in
  int order_quantity.

(** [_record_order]. *)
Definition _record_order
    (a : Agent) (date : Date) (quantity : Z) (scenario urgency : string)
  : Agent :=
  let order :=
    {| o_date := date;
       o_quantity := quantity;
       o_scenario := scenario;
       o_urgency := urgency;
       o_cost := (quantity * 30)%Z;
       o_lead_time_expected := lead_time_days a |} in
  let a1 := set_orders_placed (orders_placed a ++ [order]) a in
  set_total_costs (total_costs a1 + o_cost order)%Z a1.

(** What lines 116-153 of [make_intelligent_decision] have established when
    the reorder test is reached. *)
Record Fulfilment := {
  after_demand : Agent;        (* [self] after fulfilment and bookkeeping *)
  adaptation : Adaptation;
  clamped_demand : Q;          (* [predicted_demand] after [max(0, .)] *)
  stockout_amount : Q;
  tentative : Decision         (* [decision] before the reorder test *)
}.

(** Lines 116-153 of [make_intelligent_decision]: clamping, adaptation,
    simulated demand, fulfilment and the stockout bookkeeping. *)
Definition fulfil_period
    (a : Agent) (predicted_demand : Q) (current_date : Date)
    (scenario_name : string) (demand_variance : Q) : Fulfilment :=
  let predicted_demand := Qmax 0 predicted_demand in
  let '(a1, adaptation) :=
    analyze_scenario_and_adapt a scenario_name predicted_demand current_date in
  let stock_before := current_stock a1 in
  let actual_demand := Qmax 0 (predicted_demand + demand_variance) in
  let '(a2, (demand_fulfilled, stockout_amount)) :=
    _process_demand a1 actual_demand in
  let stocked_out := Qgt_bool stockout_amount 0 in
  let a3 :=
    if stocked_out then
      set_customer_satisfaction_score
        (Z.max 0 (customer_satisfaction_score a2 - 2))
        (set_stockouts (stockouts a2 + 1)%Z a2)
    else a2 in
  {| after_demand := a3;
     adaptation := adaptation;
     clamped_demand := predicted_demand;
     stockout_amount := stockout_amount;
     tentative :=
       {| d_date := current_date;
          d_scenario := scenario_name;
          d_predicted_demand := predicted_demand;
          d_current_stock_before := stock_before;
          d_urgency_level := urgency_level adaptation;
          d_strategy_notes := strategy_notes adaptation;
          d_adaptive_reorder_point := reorder_point adaptation;
          d_adaptive_reorder_quantity := reorder_quantity adaptation;
          d_action := if stocked_out then stockout else no_action;
          d_order_quantity := 0;
          d_reason :=
            if stocked_out then reason_stockout stockout_amount
            else reason_empty;
          d_current_stock_after := current_stock a3;
          d_actual_demand := actual_demand;
          d_demand_fulfilled := demand_fulfilled |} |}.

(** Lines 156-170: the reorder test and the order placement. *)
Definition reorder_if_needed
    (f : Fulfilment) (current_date : Date) (scenario_name : string)
  : Agent * Decision :=
  let a3 := after_demand f in
  let decision := tentative f in
  if Qle_bool (current_stock a3) (reorder_point (adaptation f)) then
    let order_quantity :=
      _calculate_smart_order_quantity a3 (reorder_quantity (adaptation f))
        (clamped_demand f) scenario_name in
    let a4 :=
      set_current_stock (current_stock a3 + inject_Z order_quantity) a3 in
    let a5 :=
      _record_order a4 current_date order_quantity scenario_name
        (urgency_level (adaptation f)) in
    (a5,
     {| d_date := d_date decision;
        d_scenario := d_scenario decision;
        d_predicted_demand := d_predicted_demand decision;
        d_current_stock_before := d_current_stock_before decision;
        d_urgency_level := d_urgency_level decision;
        d_strategy_notes := d_strategy_notes decision;
        d_adaptive_reorder_point := d_adaptive_reorder_point decision;
        d_adaptive_reorder_quantity := d_adaptive_reorder_quantity decision;
        d_action := intelligent_reorder;
        d_order_quantity := order_quantity;
        d_reason := reason_smart_reorder (strategy_notes (adaptation f));
        d_current_stock_after := current_stock a5;
        d_actual_demand := d_actual_demand decision;
        d_demand_fulfilled := d_demand_fulfilled decision |})
  else (a3, decision).

(** [make_intelligent_decision]: the agent after the period and the returned
    (and logged) decision. *)
Definition make_intelligent_decision
    (a : Agent) (predicted_demand : Q) (current_date : Date)
    (scenario_name : string) (demand_variance : Q) : Agent * Decision :=
  let f :=
    fulfil_period a predicted_demand current_date scenario_name
      demand_variance in
  let '(a5, decision) := reorder_if_needed f current_date scenario_name in
  (set_decisions_log (decisions_log a5 ++ [decision]) a5, decision).

(** [reset_simulation(initial_stock=None)]: [None] and [0] are both falsy. *)
Definition reset_simulation (a : Agent) (initial_stock : option Q) : Agent :=
  let truthy :=
    match initial_stock with
    | None => false
    | Some q => negb (Qeq_bool q 0)
    end in
  let a1 :=
    if truthy then set_current_stock (default 0 initial_stock) a
    else set_current_stock 2000 a in
  let a2 := set_orders_placed [] a1 in
  let a3 := set_stockouts 0 a2 in
  let a4 := set_decisions_log [] a3 in
  let a5 := set_total_revenue 0 a4 in
  let a6 := set_total_costs 0 a5 in
  set_customer_satisfaction_score 100 a6.

(** ** Runs *)

(** One period event as the streaming contract submits it, together with
    the noise drawn for it. *)
Record Event := {
  ev_predicted_demand : Q;
  ev_date : Date;
  ev_scenario : string;
  ev_noise : Q
}.

Definition submit (a : Agent) (e : Event) : Agent * Decision :=
  make_intelligent_decision a (ev_predicted_demand e) (ev_date e)
    (ev_scenario e) (ev_noise e).

Definition step (a : Agent) (e : Event) : Agent := fst (submit a e).

(** Events are submitted in list order. *)
Definition run (a : Agent) (es : list Event) : Agent := fold_left step es a.

(** The bookkeeping of a period up to its reorder test. *)
Definition fulfilment (a : Agent) (e : Event) : Fulfilment :=
  fulfil_period a (ev_predicted_demand e) (ev_date e) (ev_scenario e)
    (ev_noise e).

(** The stock between fulfilment and the reorder test of a period. *)
Definition post_fulfilment_stock (a : Agent) (e : Event) : Q :=
  current_stock (after_demand (fulfilment a e)).

(** The decisions logged by a run, oldest first. *)
Definition trace (a : Agent) (es : list Event) : list Decision :=
  decisions_log (run a es).

Definition normal_day (n : Z) : Event :=
  {| ev_predicted_demand := 100; ev_date := n;
     ev_scenario := "Normal_Operations"; ev_noise := 0 |}.

(** Days [1..n] of normal operations, predicted demand 100, zero noise. *)
Definition normal_days (n : nat) : list Event :=
  map (fun i => normal_day (Z.of_nat i)) (seq 1 n).

(** The events of a run submitted under a label, oldest first. *)
Definition submitted (label : string) (es : list Event) : list Event :=
  List.filter (fun e => String.eqb (ev_scenario e) label) es.

(** The demand values [_update_scenario_memory] receives for a label over a
    run: the predictions, after the clamp of line 116. *)
Definition recorded (label : string) (es : list Event) : list Q :=
  map (fun e => Qmax 0 (ev_predicted_demand e)) (submitted label es).

(** The running mean and the counter of every entry agree with the
    history [es]; labels without an entry have no history. *)
Definition memory_exact (mem : gmap string Memory) (es : list Event) : Prop :=
  forall label,
    match mem !! label with
    | None => submitted label es = []
    | Some m =>
        (0 < encounters m)%Z /\
        encounters m = Z.of_nat (length (submitted label es)) /\
        avg_demand m * inject_Z (encounters m) == Qsum (recorded label es)
    end.

(** ** Example inputs *)

(** Days [1..n] of a viral scenario, predicted demand 100, zero noise. *)
Definition viral_day (n : Z) : Event :=
  {| ev_predicted_demand := 100; ev_date := n;
     ev_scenario := "Viral_Spike_Test"; ev_noise := 0 |}.

Definition viral_days (n : nat) : list Event :=
  map (fun i => viral_day (Z.of_nat i)) (seq 1 n).

(** The viral spike of the end-to-end example: demand 500, zero noise. *)
Definition viral_spike : Event :=
  {| ev_predicted_demand := 500; ev_date := 1%Z;
     ev_scenario := "Viral_Spike_Test"; ev_noise := 0 |}.


(** Two labels interleaved. *)
Definition interleaved : list Event :=
  [ {| ev_predicted_demand := 100; ev_date := 1%Z;
       ev_scenario := "Normal_Operations"; ev_noise := 0 |};
    {| ev_predicted_demand := 500; ev_date := 2%Z;
       ev_scenario := "Viral_Spike_Test"; ev_noise := 0 |};
    {| ev_predicted_demand := 200; ev_date := 3%Z;
       ev_scenario := "Normal_Operations"; ev_noise := 0 |} ].



(** ** Reading a trace *)

(** The 1-based day of the first decision whose action is
    [intelligent_reorder]. *)
Fixpoint first_reorder_day_from (day : nat) (ds : list Decision)
  : option nat :=
  match ds with
  | [] => None
  | d :: ds' =>
      match d_action d with
      | intelligent_reorder => Some day
      | _ => first_reorder_day_from (S day) ds'
      end
  end.

Definition first_reorder_day (ds : list Decision) : option nat :=
  first_reorder_day_from 1 ds.

(** ** Order sizing in the words of the specification *)

(** Section 4.4 of the specification: the base candidate is the policy's
    reorder quantity; if at least 7 prior periods have recorded
    [actual_demand], the candidate is the larger of the base candidate and
    [mean(last 7 actual_demand) * 7 * weeks_coverage], where the coverage is
    chosen by the urgency tier; the candidate is clamped to
    [max_order_size] and floored. *)
Definition spec_order_quantity (a : Agent) (policy : Adaptation) : Z :=
  let base := reorder_quantity policy in
  let candidate :=
    if (7 <=? length (decisions_log a))%nat then
      let avg_weekly_demand :=
        np_mean (map d_actual_demand (last_n 7 (decisions_log a))) * 7 in
      let coverage :=
        if contains "Critical" (urgency_level policy) then 4
        else if contains "Conservative" (urgency_level policy) then 15 # 10
        else 25 # 10 in
      Qmax base (avg_weekly_demand * coverage)
    else base in
  int (Qmin candidate (inject_Z (max_order_size a))).

(** ** Performance metrics *)

(** [x / y] on numbers; [None] stands for [ZeroDivisionError]. *)
Definition py_div (x y : Q) : option Q :=
  if Qeq_bool y 0 then None else Some (x / y).

(** The nearest integer, a tie going to the even neighbour. *)
Definition round_half_even (q : Q) : Z :=
  let f := Qfloor q in
  match Qcompare (q - inject_Z f) (1 # 2) with
  | Lt => f
  | Gt => (f + 1)%Z
  | Eq => if Z.even f then f else (f + 1)%Z
  end.

(** [round(q, ndigits)] for a float [q] and [ndigits >= 0]. *)
Definition py_round (q : Q) (ndigits : nat) : Q :=
  inject_Z (round_half_even (q * inject_Z (10 ^ Z.of_nat ndigits)))
  / inject_Z (10 ^ Z.of_nat ndigits).

(** [sum(...)] over integers. *)
Definition Zsum (l : list Z) : Z := fold_right Z.add 0%Z l.

(** The [scenario_counts] loop of [get_performance_metrics]:
    [counts[s] = counts.get(s, 0) + 1]. *)
Definition count_scenario (counts : gmap string Z) (d : Decision)
  : gmap string Z :=
  <[d_scenario d := (default 0%Z (counts !! d_scenario d) + 1)%Z]> counts.

Definition scenario_counts (log : list Decision) : gmap string Z :=
  fold_left count_scenario log ∅.

(** The dictionary built by [get_performance_metrics], its four groups
    flattened.  [round] leaves the integers ([total_costs], the satisfaction
    score) as they are. *)
Record Metrics := {
  (* operational *)
  pm_total_days_simulated : nat;
  pm_stockouts : Z;
  pm_stockout_rate_percent : Q;
  pm_service_level_percent : Q;
  pm_customer_satisfaction : Z;
  (* financial *)
  pm_total_revenue : Q;
  pm_total_costs : Z;
  pm_profit : Q;
  pm_profit_margin_percent : Q;
  (* inventory *)
  pm_current_stock : Q;
  pm_total_orders_placed : nat;
  pm_average_order_size : Q;
  pm_total_units_ordered : Z;
  pm_inventory_turnover_rate : Q;
  (* intelligence *)
  pm_scenarios_encountered : nat;
  pm_scenario_breakdown : gmap string Z;
  pm_adaptive_decisions : nat;
  pm_learning_entries : nat
}.

(** [get_performance_metrics].  The outer [None] is a raised
    [ZeroDivisionError]; [Some None] is the empty dictionary returned when
    no decision is logged.  The ratios and [round(..., 2)] are computed on
    exact rationals here and on doubles in the code, so a rounded
    percentage can differ by 0.01 from the value here (the code gives
    31.87 for 51 of 160, the exact ratio 31.875 rounds to 31.88); the
    integer counters, the breakdown and whether a division raises are the
    same in both. *)
Definition get_performance_metrics (a : Agent) : option (option Metrics) :=
  let total_days := length (decisions_log a) in
  if (total_days =? 0)%nat then Some None
  else
    let days := inject_Z (Z.of_nat total_days) in
    r ← py_div (inject_Z (stockouts a)) days;
    let stockout_rate := r * 100 in
    r ← py_div (inject_Z (Z.of_nat total_days - stockouts a)) days;
    let service_level := r * 100 in
    let profit := total_revenue a - inject_Z (total_costs a) in
    profit_margin ←
      (if Qgt_bool (total_revenue a) 0 then
         r ← py_div profit (total_revenue a); Some (r * 100)
       else Some 0);
    let total_orders := length (orders_placed a) in
    let avg_order_size :=
      match orders_placed a with
      | [] => 0
      | _ => np_mean (map (fun o => inject_Z (o_quantity o)) (orders_placed a))
      end in
    let total_ordered := Zsum (map o_quantity (orders_placed a)) in
    let counts := scenario_counts (decisions_log a) in
    turnover ← py_div (inject_Z total_ordered) (Qmax 1 (current_stock a));
    Some (Some
      {| pm_total_days_simulated := total_days;
         pm_stockouts := stockouts a;
         pm_stockout_rate_percent := py_round stockout_rate 2;
         pm_service_level_percent := py_round service_level 2;
         pm_customer_satisfaction := customer_satisfaction_score a;
         pm_total_revenue := py_round (total_revenue a) 2;
         pm_total_costs := total_costs a;
         pm_profit := py_round profit 2;
         pm_profit_margin_percent := py_round profit_margin 2;
         pm_current_stock := current_stock a;
         pm_total_orders_placed := total_orders;
         pm_average_order_size := py_round avg_order_size 0;
         pm_total_units_ordered := total_ordered;
         pm_inventory_turnover_rate := py_round turnover 2;
         pm_scenarios_encountered := size counts;
         pm_scenario_breakdown := counts;
         pm_adaptive_decisions :=
           length (List.filter
                     (fun d => negb (String.eqb (d_urgency_level d) "Normal"))
                     (decisions_log a));
         pm_learning_entries := size (scenario_memory a) |}).

(** ** Performance by scenario *)

(** The keys [get_scenario_performance] adds in its second loop. *)
Record Derived := {
  sp_stockout_rate : Q;
  sp_avg_demand : Q;
  sp_fulfillment_rate : Q;
  sp_most_common_urgency : string
}.

(** One value of the dictionary built by [get_scenario_performance]. *)
Record ScenarioPerf := {
  sp_encounters : Z;
  sp_stockouts : Z;
  sp_orders_placed : Z;
  sp_total_demand : Q;
  sp_total_fulfilled : Q;
  sp_urgency_levels : list string;
  sp_derived : option Derived
}.

Definition fresh_perf : ScenarioPerf :=
  {| sp_encounters := 0; sp_stockouts := 0; sp_orders_placed := 0;
     sp_total_demand := 0; sp_total_fulfilled := 0;
     sp_urgency_levels := []; sp_derived := None |}.

(** The body of the first loop (lines 296-322).  Both ['actual_demand'] and
    ['demand_fulfilled'] are keys of every logged decision. *)
Definition accumulate_perf (perfs : gmap string ScenarioPerf) (d : Decision)
  : gmap string ScenarioPerf :=
  let perf := default fresh_perf (perfs !! d_scenario d) in
  <[d_scenario d :=
      {| sp_encounters := (sp_encounters perf + 1)%Z;
         sp_stockouts :=
           match d_action d with
           | stockout => (sp_stockouts perf + 1)%Z
           | _ => sp_stockouts perf
           end;
         sp_orders_placed :=
           match d_action d with
           | intelligent_reorder => (sp_orders_placed perf + 1)%Z
           | _ => sp_orders_placed perf
           end;
         sp_total_demand := sp_total_demand perf + d_actual_demand d;
         sp_total_fulfilled := sp_total_fulfilled perf + d_demand_fulfilled d;
         sp_urgency_levels := sp_urgency_levels perf ++ [d_urgency_level d];
         sp_derived := sp_derived perf |}]> perfs.

(** [l.count(x)]. *)
Definition py_count (l : list string) (x : string) : nat :=
  length (List.filter (String.eqb x) l).

(** [max(xs, key=key)]: the first element whose key no later element
    exceeds; [None] stands for the [ValueError] on an empty argument. *)
Definition py_max_by_key {A} (key : A -> nat) (xs : list A) : option A :=
  match xs with
  | [] => None
  | x :: xs' =>
      Some (fold_left
              (fun best y => if (key best <? key y)%nat then y else best)
              xs' x)
  end.

(** The body of the second loop (lines 325-330).  [set_order l] is the order
    in which Python iterates [set(l)], which the language leaves open.
    [None] stands for a raised exception. *)
Definition derive_perf
    (set_order : list string -> list string) (perf : ScenarioPerf)
  : option ScenarioPerf :=
  if (0 <? sp_encounters perf)%Z then
    r ← py_div (inject_Z (sp_stockouts perf)) (inject_Z (sp_encounters perf));
    let stockout_rate := r * 100 in
    avg ← py_div (sp_total_demand perf) (inject_Z (sp_encounters perf));
    r ← py_div (sp_total_fulfilled perf) (Qmax 1 (sp_total_demand perf));
    let fulfillment_rate := r * 100 in
    urgency ← py_max_by_key (py_count (sp_urgency_levels perf))
                (set_order (sp_urgency_levels perf));
    Some {| sp_encounters := sp_encounters perf;
            sp_stockouts := sp_stockouts perf;
            sp_orders_placed := sp_orders_placed perf;
            sp_total_demand := sp_total_demand perf;
            sp_total_fulfilled := sp_total_fulfilled perf;
            sp_urgency_levels := sp_urgency_levels perf;
            sp_derived :=
              Some {| sp_stockout_rate := stockout_rate;
                      sp_avg_demand := avg;
                      sp_fulfillment_rate := fulfillment_rate;
                      sp_most_common_urgency := urgency |} |}
  else Some perf.

(** The dictionary after the first loop. *)
Definition accumulated_perf (log : list Decision) : gmap string ScenarioPerf :=
  fold_left accumulate_perf log ∅.

(** [get_scenario_performance]: [None] when an entry of the second loop
    raises. *)
Definition get_scenario_performance
    (set_order : list string -> list string) (a : Agent)
  : option (gmap string ScenarioPerf) :=
  let results := derive_perf set_order <$> accumulated_perf (decisions_log a) in
  if decide (map_Forall (fun _ r => is_Some r) results)
  then Some (omap id results)
  else None.

(** ** The agent service

    [streaming_production/services/agent_service.py].  Wall-clock values
    ([service_start_time], the [timestamp], [uptime_seconds] and
    [expected_delivery] entries) and the formatted [estimated_cost] string
    are written but never read by the service; they are left out. *)

(** A field of the submitted JSON object, seen through the conversion the
    service applies to it ([float(...)], [datetime.strptime]). *)
Inductive Field (A : Type) : Type :=
| absent                (* the key is missing *)
| unparseable           (* the conversion raises *)
| parsed (v : A).

Arguments absent {A}.
Arguments unparseable {A}.
Arguments parsed {A} v.

(** The value under the ['scenario'] key.  No conversion is applied to it;
    anything but a string makes the agent raise [TypeError] on its first
    use of the label ([in] on [None], a number or a boolean at line 43 of
    [inventory_agent.py]; an array or an object as a dictionary key at
    line 98). *)
Inductive ScenarioValue :=
| scenario_label (s : string)
| scenario_not_a_string.

(** The argument of [process_daily_data]; [dd_scenario] is [None] when the
    key is missing. *)
Record DailyData := {
  dd_date : Field Date;
  dd_sales : Field Q;
  dd_scenario : option ScenarioValue;
  dd_predicted_demand : Field Q
}.

(** The [performance_metrics] dictionary of the service. *)
Record ServiceMetrics := {
  sm_total_revenue : Q;
  sm_total_costs : Z;
  sm_stockouts : Z;
  sm_orders_placed : Z;
  sm_service_level : Q
}.

(** One entry of [daily_data_log]. *)
Record DailyLogEntry := {
  dl_day : Z;
  dl_date : Date;
  dl_sales : Q;
  dl_scenario : string;
  dl_predicted_demand : Q
}.

(** The attributes of a [ProductionAgentService]. *)
Record Service := {
  svc_agent : Agent;
  svc_current_day : Z;
  svc_total_decisions : Z;
  svc_daily_data_log : list DailyLogEntry;
  svc_decision_log : list (Z * Decision);
  svc_performance_metrics : ServiceMetrics
}.

(** [ProductionAgentService.__init__]. *)
Definition ProductionAgentService : Service :=
  {| svc_agent := IntelligentInventoryAgent 3000 400 1000;
     svc_current_day := 0;
     svc_total_decisions := 0;
     svc_daily_data_log := [];
     svc_decision_log := [];
     svc_performance_metrics :=
       {| sm_total_revenue := 0; sm_total_costs := 0; sm_stockouts := 0;
          sm_orders_placed := 0; sm_service_level := 100 |} |}.

(** [_update_performance_metrics]; [current_day] is the day counter after
    its increment.  The division is under the guard [current_day > 0]. *)
Definition _update_performance_metrics
    (pm : ServiceMetrics) (current_day : Z) (decision : Decision)
    (actual_sales : Q) : ServiceMetrics :=
  let fulfilled_demand := Qmin actual_sales (d_current_stock_before decision) in
  let revenue := sm_total_revenue pm + fulfilled_demand * 50 in
  let '(costs, orders) :=
    match d_action decision with
    | intelligent_reorder =>
        ((sm_total_costs pm + d_order_quantity decision * 30)%Z,
         (sm_orders_placed pm + 1)%Z)
    | _ => (sm_total_costs pm, sm_orders_placed pm)
    end in
  let stockouts :=
    match d_action decision with
    | stockout => (sm_stockouts pm + 1)%Z
    | _ => sm_stockouts pm
    end in
  let service_level :=
    if (0 <? current_day)%Z then
      inject_Z (current_day - stockouts) / inject_Z current_day * 100
    else sm_service_level pm in
  {| sm_total_revenue := revenue;
     sm_total_costs := costs;
     sm_stockouts := stockouts;
     sm_orders_placed := orders;
     sm_service_level := service_level |}.

(** The [reorder_message] of a response. *)
Record ReorderMessage := {
  rm_quantity : Z;
  rm_urgency : string;
  rm_reason : Reason
}.

(** The dictionary built by [_create_response]. *)
Record Response := {
  rs_day : Z;
  rs_action : Action;
  rs_urgency_level : string;
  rs_reason : Reason;
  rs_current_stock : Q;
  rs_order_quantity : Z;
  rs_reorder_point : Q;
  rs_reorder_message : option ReorderMessage;
  rs_service_level : Q;
  rs_total_revenue : Q;
  rs_total_costs : Z;
  rs_profit : Q;
  rs_orders_placed : Z;
  rs_stockouts : Z;
  rs_total_decisions : Z
}.

(** [_create_response], on the service as [process_daily_data] has updated
    it so far. *)
Definition _create_response (svc : Service) (decision : Decision) : Response :=
  let pm := svc_performance_metrics svc in
  let reorder_message :=
    match d_action decision with
    | intelligent_reorder =>
        Some {| rm_quantity := d_order_quantity decision;
                rm_urgency := d_urgency_level decision;
                rm_reason := d_reason decision |}
    | _ => None
    end in
  let profit := sm_total_revenue pm - inject_Z (sm_total_costs pm) in
  {| rs_day := svc_current_day svc;
     rs_action := d_action decision;
     rs_urgency_level := d_urgency_level decision;
     rs_reason := d_reason decision;
     rs_current_stock := d_current_stock_after decision;
     rs_order_quantity := d_order_quantity decision;
     rs_reorder_point := d_adaptive_reorder_point decision;
     rs_reorder_message := reorder_message;
     rs_service_level := py_round (sm_service_level pm) 2;
     rs_total_revenue := py_round (sm_total_revenue pm) 2;
     rs_total_costs := sm_total_costs pm;
     rs_profit := py_round profit 2;
     rs_orders_placed := sm_orders_placed pm;
     rs_stockouts := sm_stockouts pm;
     rs_total_decisions := svc_total_decisions svc |}.

(** What [process_daily_data] returns: the response, or the error
    dictionary of the [except] branch. *)
Inductive Reply :=
| reply_success (r : Response)
| reply_error.

(** Lines 59-65: the conversions, in the order the code performs them.
    [None] when one of them raises. *)
Definition extract_daily_data (dd : DailyData)
  : option (Date * Q * ScenarioValue * Q) :=
  sales ← match dd_sales dd with
          | absent => Some 0
          | unparseable => None
          | parsed v => Some v
          end;
  let scenario :=
    default (scenario_label "Normal_Operations") (dd_scenario dd) in
  predicted_demand ← match dd_predicted_demand dd with
                     | absent => Some sales
                     | unparseable => None
                     | parsed v => Some v
                     end;
  current_date ← match dd_date dd with
                 | parsed d => Some d
                 | _ => None
                 end;
  Some (current_date, sales, scenario, predicted_demand).

(** [process_daily_data]; [demand_variance] is the draw made inside the
    agent's call.  A scenario that is not a string makes that call raise
    before the agent or the service has written anything (the clamp of
    line 116 is local), and the [except] branch answers. *)
Definition process_daily_data
    (svc : Service) (dd : DailyData) (demand_variance : Q) : Service * Reply :=
  match extract_daily_data dd with
  | None => (svc, reply_error)
  | Some (_, _, scenario_not_a_string, _) => (svc, reply_error)
  | Some (current_date, sales, scenario_label scenario, predicted_demand) =>
      let '(agent, decision) :=
        make_intelligent_decision (svc_agent svc) predicted_demand
          current_date scenario demand_variance in
      let current_day := (svc_current_day svc + 1)%Z in
      let total_decisions := (svc_total_decisions svc + 1)%Z in
      let pm :=
        _update_performance_metrics (svc_performance_metrics svc)
          current_day decision sales in
      let svc' :=
        {| svc_agent := agent;
           svc_current_day := current_day;
           svc_total_decisions := total_decisions;
           svc_daily_data_log :=
             svc_daily_data_log svc
               ++ [{| dl_day := current_day; dl_date := current_date;
                      dl_sales := sales; dl_scenario := scenario;
                      dl_predicted_demand := predicted_demand |}];
           svc_decision_log := svc_decision_log svc ++ [(current_day, decision)];
           svc_performance_metrics := pm |} in
      (svc', reply_success (_create_response svc' decision))
  end.

(** The [recent_decisions] entry of [get_current_state]. *)
Definition recent_decisions (svc : Service) : list (Z * Decision) :=
  if (10 <=? length (svc_decision_log svc))%nat
  then last_n 10 (svc_decision_log svc)
  else svc_decision_log svc.

(** One request: the submitted object and the noise drawn for it. *)
Definition Request : Type := DailyData * Q.

Definition serve (svc : Service) (r : Request) : Service :=
  fst (process_daily_data svc (fst r) (snd r)).

(** Requests are served in list order. *)
Definition serve_all (svc : Service) (rs : list Request) : Service :=
  fold_left serve rs svc.

(** ** Reading the logs *)

(** The test of line 144, read back from a logged decision: the simulated
    demand exceeded what was fulfilled. *)
Definition unmet (d : Decision) : bool :=
  Qgt_bool (d_actual_demand d) (d_demand_fulfilled d).

Definition is_reorder (d : Decision) : bool :=
  match d_action d with intelligent_reorder => true | _ => false end.

Definition is_stockout (d : Decision) : bool :=
  match d_action d with stockout => true | _ => false end.

(** What an order and the decision of its period have in common. *)
Definition order_summary (o : Order) : Date * Z * string * string :=
  (o_date o, o_quantity o, o_scenario o, o_urgency o).

Definition decision_summary (d : Decision) : Date * Z * string * string :=
  (d_date d, d_order_quantity d, d_scenario d, d_urgency_level d).

(** ** Calls on an agent *)

(** A call a driver can make on the agent between construction and
    reporting: a period event or a reset. *)
Inductive Call :=
| call_event (e : Event)
| call_reset (initial_stock : option Q).

Definition apply_call (a : Agent) (c : Call) : Agent :=
  match c with
  | call_event e => step a e
  | call_reset initial_stock => reset_simulation a initial_stock
  end.

(** Calls are made in list order. *)
Definition run_calls (a : Agent) (cs : list Call) : Agent :=
  fold_left apply_call cs a.

(** The period events among the calls, in order. *)
Definition events_of (cs : list Call) : list Event :=
  flat_map (fun c => match c with
                     | call_event e => [e]
                     | call_reset _ => []
                     end) cs.

(** A reset whose argument, if any, is a non-negative stock. *)
Definition nonneg_reset (c : Call) : Prop :=
  match c with
  | call_reset (Some s) => 0 <= s
  | _ => True
  end.

(** The urgency tiers and the largest demand recorded in an entry agree
    with the history [es] under the policy of agent [a0]. *)
Definition memory_history
    (a0 : Agent) (mem : gmap string Memory) (es : list Event) : Prop :=
  forall label m,
    mem !! label = Some m ->
    successful_strategies m
    = repeat (urgency_level (adapt a0 label))
        (length (submitted label es)) /\
    Forall (fun d => d <= max_demand m) (recorded label es) /\
    exists d, In d (recorded label es) /\ max_demand m == d.

(** Two periods of normal operations with a reset between them. *)
Definition reset_between : list Call :=
  [ call_event (normal_day 1); call_reset None;
    call_event {| ev_predicted_demand := 200; ev_date := 2%Z;
                  ev_scenario := "Normal_Operations"; ev_noise := 0 |} ].

(** How many logged decisions carry a label. *)
Definition decisions_under (label : string) (log : list Decision) : nat :=
  length (List.filter (fun d => String.eqb (d_scenario d) label) log).

(** The logged decisions that carry a label, oldest first. *)
Definition under (label : string) (log : list Decision) : list Decision :=
  List.filter (fun d => String.eqb (d_scenario d) label) log.

(** The entry the first loop of [get_scenario_performance] builds for a
    label, read off the log directly; sums are taken in log order. *)
Definition perf_of (label : string) (log : list Decision) : ScenarioPerf :=
  let ds := under label log in
  {| sp_encounters := Z.of_nat (length ds);
     sp_stockouts := Z.of_nat (length (List.filter is_stockout ds));
     sp_orders_placed := Z.of_nat (length (List.filter is_reorder ds));
     sp_total_demand := fold_left Qplus (map d_actual_demand ds) 0;
     sp_total_fulfilled := fold_left Qplus (map d_demand_fulfilled ds) 0;
     sp_urgency_levels := map d_urgency_level ds;
     sp_derived := None |}.

(** [set_order] iterates exactly the elements of its argument. *)
Definition iterates_elements (set_order : list string -> list string) : Prop :=
  forall l x, In x (set_order l) <-> In x l.

(** A logged decision fulfilled no more than was demanded, and no less
    than nothing. *)
Definition fulfilled_within_demand (d : Decision) : Prop :=
  0 <= d_demand_fulfilled d <= d_actual_demand d.

(** A logged decision carries the urgency tier the policy of agent [a0]
    gives its label. *)
Definition tier_of_policy (a0 : Agent) (d : Decision) : Prop :=
  d_urgency_level d = urgency_level (adapt a0 (d_scenario d)).

(** The period event an accepted request amounts to. *)
Definition event_of (r : Request) : option Event :=
  x ← extract_daily_data (fst r);
  match x with
  | (current_date, _, scenario_label scenario, predicted_demand) =>
      Some {| ev_predicted_demand := predicted_demand;
              ev_date := current_date;
              ev_scenario := scenario;
              ev_noise := snd r |}
  | (_, _, scenario_not_a_string, _) => None
  end.

(** A request with an unparseable date, and one whose scenario is JSON
    [null]. *)
Definition bad_date_request : Request :=
  ({| dd_date := unparseable; dd_sales := parsed 120;
      dd_scenario := Some (scenario_label "Normal_Operations");
      dd_predicted_demand := parsed 100 |}, 0).

Definition null_scenario_request : Request :=
  ({| dd_date := parsed 1%Z; dd_sales := parsed 120;
      dd_scenario := Some scenario_not_a_string;
      dd_predicted_demand := parsed 100 |}, 0).

(** The period events of the accepted requests, in order. *)
Definition events_served (rs : list Request) : list Event := omap event_of rs.

(** ** Proof automation *)

(** Reduces attribute reads through attribute assignments. *)
Ltac agent_simpl :=
  cbn [fst snd
       current_stock base_reorder_point base_reorder_quantity orders_placed
       stockouts decisions_log scenario_memory total_revenue total_costs
       customer_satisfaction_score safety_stock_multiplier max_order_size
       lead_time_days
       set_current_stock set_orders_placed set_stockouts set_decisions_log
       set_scenario_memory set_total_revenue set_total_costs
       set_customer_satisfaction_score _record_order
       d_action d_order_quantity o_quantity o_cost].

(** Splits a goal about [step] along the reorder test of line 156. *)
Ltac reorder_cases :=
  unfold step, submit, make_intelligent_decision, reorder_if_needed;
  fold_fulfilment;
  match goal with
  | |- context [Qle_bool ?x ?y] =>
      let E := fresh "Hlow" in
      destruct (Qle_bool x y) eqn:E; agent_simpl
  end
with fold_fulfilment :=
  repeat match goal with
         | |- context [fulfil_period ?a (ev_predicted_demand ?e) (ev_date ?e)
                         (ev_scenario ?e) (ev_noise ?e)] =>
             change (fulfil_period a (ev_predicted_demand e) (ev_date e)
                       (ev_scenario e) (ev_noise e))
               with (fulfilment a e)
         end.

(** Splits a goal about [fulfil_period] along the two tests of lines 180
    and 144. *)
Ltac fulfil_cases :=
  unfold fulfil_period, analyze_scenario_and_adapt, _process_demand; cbn;
  match goal with
  | |- context [Qle_bool ?x ?y] =>
      let E := fresh "Hfit" in
      destruct (Qle_bool x y) eqn:E; cbn
  end;
  match goal with
  | |- context [Qgt_bool ?x ?y] =>
      let E := fresh "Hout" in
      destruct (Qgt_bool x y) eqn:E; cbn
  | _ => idtac
  end.

(** Reduces reads of a decision's keys. *)
Ltac decision_simpl :=
  cbn [d_date d_scenario d_predicted_demand d_current_stock_before
       d_urgency_level d_strategy_notes d_adaptive_reorder_point
       d_adaptive_reorder_quantity d_action d_order_quantity d_reason
       d_current_stock_after d_actual_demand d_demand_fulfilled].

(** ** Basic facts about the helpers *)

Section Helpers.

Lemma int_nonneg (q : Q) : 0 <= q -> (0 <= int q)%Z.
Proof.
  destruct q as [n d]; unfold Qle, int; simpl; intros H.
  apply Z.quot_pos; lia.
Qed.

Lemma int_le_inject_Z (q : Q) (m : Z) : q <= inject_Z m -> (int q <= m)%Z.
Proof.
  destruct q as [n d]; unfold Qle, int; simpl; intros H.
  rewrite <- (Z.quot_mul m (Zpos d)) by lia.
  apply Z.quot_le_mono; lia.
Qed.

Lemma Qsum_app (l1 l2 : list Q) : Qsum (l1 ++ l2) == Qsum l1 + Qsum l2.
Proof.
  induction l1 as [|x l1 IH]; simpl.
  - lra.
  - unfold Qsum in *; simpl. rewrite IH. lra.
Qed.


Lemma Qmax_0_nonneg (p : Q) : 0 <= Qmax 0 p.
Proof. apply Q.le_max_l. Qed.

Lemma Qgt_bool_true (x y : Q) : Qgt_bool x y = true <-> y < x.
Proof.
  unfold Qgt_bool. rewrite negb_true_iff.
  split; intros H.
  - apply Qnot_le_lt. intros Hle. apply Qle_bool_iff in Hle. congruence.
  - destruct (Qle_bool x y) eqn:E; [|reflexivity].
    apply Qle_bool_iff in E. lra.
Qed.

End Helpers.

(** ** What fulfilment leaves unchanged *)

Section Frame.

Variables (a : Agent) (p : Q) (date : Date) (label : string) (noise : Q).

Local Abbreviation f := (fulfil_period a p date label noise).

Lemma fulfil_max_order_size :
  max_order_size (after_demand f) = max_order_size a.
Proof.
  fulfil_cases; reflexivity.
Qed.

Lemma fulfil_base_reorder_quantity :
  base_reorder_quantity (after_demand f) = base_reorder_quantity a.
Proof.
  fulfil_cases; reflexivity.
Qed.

Lemma fulfil_orders_placed :
  orders_placed (after_demand f) = orders_placed a.
Proof.
  fulfil_cases; reflexivity.
Qed.

Lemma fulfil_decisions_log :
  decisions_log (after_demand f) = decisions_log a.
Proof.
  fulfil_cases; reflexivity.
Qed.

Lemma fulfil_scenario_memory :
  scenario_memory (after_demand f) =
  scenario_memory
    (_update_scenario_memory a label (Qmax 0 p)
       (urgency_level (adapt a label))).
Proof.
  fulfil_cases; reflexivity.
Qed.

Lemma fulfil_adaptation : adaptation f = adapt a label.
Proof.
  fulfil_cases; reflexivity.
Qed.

Lemma fulfil_stock_nonneg :
  0 <= current_stock a -> 0 <= current_stock (after_demand f).
Proof.
  intros Hs.
  fulfil_cases; try lra;
    apply Qle_bool_iff in Hfit; lra.
Qed.

End Frame.

(** ** Order sizing *)

Section OrderSizing.

Lemma inject_Z_nonneg (z : Z) : (0 <= z)%Z -> 0 <= inject_Z z.
Proof. intros H. unfold Qle; simpl. lia. Qed.

Lemma adapt_quantity_nonneg (a : Agent) (label : string) :
  0 <= base_reorder_quantity a -> (0 <= max_order_size a)%Z ->
  0 <= reorder_quantity (adapt a label).
Proof.
  intros Hq Hm. apply inject_Z_nonneg in Hm.
  unfold adapt.
  repeat match goal with
         | |- context [if ?c then _ else _] => destruct c
         end; simpl; try apply Q.min_glb; lra.
Qed.

Lemma smart_order_quantity_nonneg
    (a : Agent) (base predicted : Q) (label : string) :
  0 <= base -> (0 <= max_order_size a)%Z ->
  (0 <= _calculate_smart_order_quantity a base predicted label)%Z.
Proof.
  intros Hb Hm. apply inject_Z_nonneg in Hm.
  unfold _calculate_smart_order_quantity.
  apply int_nonneg, Q.min_glb; [|exact Hm].
  destruct (7 <? length (decisions_log a))%nat; [|exact Hb].
  eapply Qle_trans; [exact Hb | apply Q.le_max_l].
Qed.

Lemma smart_order_quantity_le_max
    (a : Agent) (base predicted : Q) (label : string) :
  (_calculate_smart_order_quantity a base predicted label
   <= max_order_size a)%Z.
Proof.
  unfold _calculate_smart_order_quantity.
  apply int_le_inject_Z, Q.le_min_r.
Qed.

End OrderSizing.

(** ** One period *)

Section Period.

Variables (a : Agent) (e : Event).

Lemma fulfilment_max_order_size :
  max_order_size (after_demand (fulfilment a e)) = max_order_size a.
Proof. apply fulfil_max_order_size. Qed.

Lemma step_max_order_size : max_order_size (step a e) = max_order_size a.
Proof. reorder_cases; apply fulfilment_max_order_size. Qed.

Lemma step_base_reorder_quantity :
  base_reorder_quantity (step a e) = base_reorder_quantity a.
Proof. reorder_cases; apply fulfil_base_reorder_quantity. Qed.

Lemma step_scenario_memory :
  scenario_memory (step a e) =
  scenario_memory
    (_update_scenario_memory a (ev_scenario e)
       (Qmax 0 (ev_predicted_demand e))
       (urgency_level (adapt a (ev_scenario e)))).
Proof. reorder_cases; apply fulfil_scenario_memory. Qed.

Lemma step_decisions_log :
  decisions_log (step a e) = decisions_log a ++ [snd (submit a e)].
Proof.
  reorder_cases; unfold fulfilment;
    rewrite fulfil_decisions_log; reflexivity.
Qed.

Lemma step_current_stock_nonneg :
  0 <= current_stock a -> 0 <= base_reorder_quantity a ->
  (0 <= max_order_size a)%Z ->
  0 <= current_stock (step a e).
Proof.
  intros Hs Hq Hm.
  pose proof (fulfil_stock_nonneg a (ev_predicted_demand e) (ev_date e)
                (ev_scenario e) (ev_noise e) Hs) as Hs'.
  reorder_cases; [|exact Hs'].
  assert (0 <= inject_Z
                 (_calculate_smart_order_quantity
                    (after_demand (fulfilment a e))
                    (reorder_quantity (adaptation (fulfilment a e)))
                    (clamped_demand (fulfilment a e)) (ev_scenario e)))
    as Ho.
  { apply inject_Z_nonneg, smart_order_quantity_nonneg.
    - unfold fulfilment. rewrite fulfil_adaptation.
      now apply adapt_quantity_nonneg.
    - now rewrite fulfilment_max_order_size. }
  unfold fulfilment in *. lra.
Qed.

Lemma step_orders_placed :
  exists new,
    orders_placed (step a e) = orders_placed a ++ new /\
    Forall (fun o => (o_quantity o <= max_order_size a)%Z) new.
Proof.
  reorder_cases; unfold fulfilment; rewrite fulfil_orders_placed.
  - eexists; split; [reflexivity|].
    constructor; [|constructor]. agent_simpl.
    rewrite <- (fulfil_max_order_size a (ev_predicted_demand e) (ev_date e)
                  (ev_scenario e) (ev_noise e)).
    apply smart_order_quantity_le_max.
  - exists []. split; [now rewrite app_nil_r | constructor].
Qed.

End Period.

(** ** Runs of the engine *)

Section Runs.

Lemma run_cons (a : Agent) (e : Event) (es : list Event) :
  run a (e :: es) = run (step a e) es.
Proof. reflexivity. Qed.

Lemma run_app (a : Agent) (es1 es2 : list Event) :
  run a (es1 ++ es2) = run (run a es1) es2.
Proof. apply fold_left_app. Qed.

Lemma run_snoc (a : Agent) (es : list Event) (e : Event) :
  run a (es ++ [e]) = step (run a es) e.
Proof. now rewrite run_app. Qed.

Lemma run_max_order_size (a : Agent) (es : list Event) :
  max_order_size (run a es) = max_order_size a.
Proof.
  revert a; induction es as [|e es IH]; intros a; simpl; [reflexivity|].
  now rewrite IH, step_max_order_size.
Qed.

Lemma run_base_reorder_quantity (a : Agent) (es : list Event) :
  base_reorder_quantity (run a es) = base_reorder_quantity a.
Proof.
  revert a; induction es as [|e es IH]; intros a; simpl; [reflexivity|].
  now rewrite IH, step_base_reorder_quantity.
Qed.

Lemma run_current_stock_nonneg (a : Agent) (es : list Event) :
  0 <= current_stock a -> 0 <= base_reorder_quantity a ->
  (0 <= max_order_size a)%Z ->
  0 <= current_stock (run a es).
Proof.
  revert a; induction es as [|e es IH]; intros a Hs Hq Hm; simpl;
    [exact Hs|].
  apply IH.
  - now apply step_current_stock_nonneg.
  - now rewrite step_base_reorder_quantity.
  - now rewrite step_max_order_size.
Qed.

Lemma run_length_decisions_log (a : Agent) (es : list Event) :
  length (decisions_log (run a es)) =
  (length (decisions_log a) + length es)%nat.
Proof.
  revert a; induction es as [|e es IH]; intros a; simpl; [lia|].
  rewrite IH, step_decisions_log, length_app. simpl. lia.
Qed.

End Runs.

(** ** Stock never goes negative *)

(** C6, as amended.  From any state whose stock, base reorder quantity and
    maximum order size are all non-negative, the stock is non-negative after
    every period of every event sequence: fulfilment debits at most the
    stock at hand, and the order quantity added by a reorder is then
    non-negative.  Events are unconstrained: a negative prediction is
    clamped, and the simulated demand is clamped after the noise is added. *)
Theorem current_stock_nonneg_after_every_period
    (a : Agent) (es : list Event) (n : nat) :
  0 <= current_stock a ->
  0 <= base_reorder_quantity a ->
  (0 <= max_order_size a)%Z ->
  0 <= current_stock (run a (firstn n es)).
Proof. apply run_current_stock_nonneg. Qed.

Lemma current_stock_nonneg_after_every_period_witness :
  0 <= current_stock (run default_agent (firstn 17 (normal_days 18))).
Proof.
  apply (current_stock_nonneg_after_every_period
           default_agent (normal_days 18) 17);
    vm_compute; discriminate.
Defined.

(** With a negative base reorder quantity the reorder of the first period
    subtracts stock: from stock 0 the period ends at -800.  Non-negative
    stock alone is therefore not enough for the invariant. *)
Lemma negative_base_quantity_drives_stock_negative :
  0 <= current_stock (IntelligentInventoryAgent 0 300 (-800)) /\
  current_stock
    (run (IntelligentInventoryAgent 0 300 (-800)) [normal_day 1]) == -800 /\
  ~ 0 <= current_stock
           (run (IntelligentInventoryAgent 0 300 (-800)) [normal_day 1]).
Proof.
  vm_compute. repeat split; try discriminate.
  intros H; apply H; reflexivity.
Qed.

(** ** Order quantities are capped *)

(** C7.  Over any sequence of period events from any state, the order log
    only grows at its end, and every order appended has a quantity of at
    most [max_order_size]. *)
Theorem appended_orders_within_max_order_size (a : Agent) (es : list Event) :
  exists new,
    orders_placed (run a es) = orders_placed a ++ new /\
    Forall (fun o => (o_quantity o <= max_order_size a)%Z) new.
Proof.
  revert a; induction es as [|e es IH]; intros a.
  - exists []. split; [now rewrite app_nil_r | constructor].
  - destruct (IH (step a e)) as (new2 & Heq2 & Hall2).
    destruct (step_orders_placed a e) as (new1 & Heq1 & Hall1).
    exists (new1 ++ new2). split.
    + rewrite run_cons, Heq2, Heq1. now rewrite app_assoc.
    + apply Forall_app; split; [exact Hall1|].
      now rewrite step_max_order_size in Hall2.
Qed.

(** ** Scenario memory *)

Section ScenarioMemory.

Lemma submitted_snoc (label : string) (es : list Event) (e : Event) :
  submitted label (es ++ [e]) =
  submitted label es ++
    (if String.eqb (ev_scenario e) label then [e] else []).
Proof. unfold submitted. now rewrite List.filter_app. Qed.

Lemma recorded_length (label : string) (es : list Event) :
  length (recorded label es) = length (submitted label es).
Proof. apply length_map. Qed.

Lemma inject_Z_succ_nonzero (n : nat) : ~ inject_Z (Z.of_nat n + 1) == 0.
Proof. unfold Qeq; simpl. lia. Qed.

Lemma update_scenario_memory_exact
    (a : Agent) (es : list Event) (e : Event) (urgency : string) :
  memory_exact (scenario_memory a) es ->
  memory_exact
    (scenario_memory
       (_update_scenario_memory a (ev_scenario e)
          (Qmax 0 (ev_predicted_demand e)) urgency))
    (es ++ [e]).
Proof.
  intros Hinv label. specialize (Hinv label).
  unfold _update_scenario_memory, recorded in *. agent_simpl.
  rewrite submitted_snoc.
  destruct (String.eqb_spec (ev_scenario e) label) as [->|Hne].
  - rewrite lookup_insert_eq. cbn [encounters avg_demand].
    rewrite length_app, map_app, Qsum_app. cbn [length map].
    destruct (scenario_memory a !! label) as [m|]; cbn [from_option];
      unfold id.
    + destruct Hinv as (Hpos & Hn & Havg). rewrite Hn in *.
      split; [lia|]. split; [lia|].
      rewrite Z.add_simpl_r, Qmult_comm, Qmult_div_r
        by apply inject_Z_succ_nonzero.
      rewrite Havg. unfold Qsum; cbn [fold_right]. lra.
    + rewrite Hinv. cbn [fresh_memory encounters avg_demand length map].
      split; [lia|]. split; [reflexivity|].
      unfold Qsum; cbn [fold_right Z.add Z.sub Z.opp Z.pos_sub].
      set (d := Qmax 0 (ev_predicted_demand e)). field.
      discriminate.
  - rewrite lookup_insert_ne by exact Hne.
    now rewrite app_nil_r.
Qed.

Lemma step_memory_exact (a : Agent) (es : list Event) (e : Event) :
  memory_exact (scenario_memory a) es ->
  memory_exact (scenario_memory (step a e)) (es ++ [e]).
Proof.
  intros H. rewrite step_scenario_memory.
  now apply update_scenario_memory_exact.
Qed.

Lemma run_memory_exact (a : Agent) (es : list Event) :
  scenario_memory a = ∅ -> memory_exact (scenario_memory (run a es)) es.
Proof.
  intros Hempty.
  induction es as [|e es IH] using rev_ind.
  - intros label. simpl. now rewrite Hempty, lookup_empty.
  - rewrite run_snoc. now apply step_memory_exact.
Qed.

End ScenarioMemory.

(** ** A stockout and a reorder in the same period *)

Section StockoutReorder.

Variables (a : Agent) (e : Event).

Lemma fulfilment_stockout_bookkeeping :
  0 < stockout_amount (fulfilment a e) ->
  stockouts (after_demand (fulfilment a e)) = (stockouts a + 1)%Z /\
  customer_satisfaction_score (after_demand (fulfilment a e))
  = Z.max 0 (customer_satisfaction_score a - 2) /\
  d_action (tentative (fulfilment a e)) = stockout.
Proof.
  unfold fulfilment. fulfil_cases; cbn [stockout_amount]; intros H.
  - lra.
  - lra.
  - repeat split; reflexivity.
  - apply Qgt_bool_true in H. congruence.
Qed.

Lemma step_stockouts :
  stockouts (step a e) = stockouts (after_demand (fulfilment a e)).
Proof. reorder_cases; reflexivity. Qed.

Lemma step_customer_satisfaction_score :
  customer_satisfaction_score (step a e)
  = customer_satisfaction_score (after_demand (fulfilment a e)).
Proof. reorder_cases; reflexivity. Qed.

Lemma submit_reorder_action :
  current_stock (after_demand (fulfilment a e))
  <= reorder_point (adaptation (fulfilment a e)) ->
  d_action (snd (submit a e)) = intelligent_reorder /\
  d_order_quantity (snd (submit a e))
  = _calculate_smart_order_quantity (after_demand (fulfilment a e))
      (reorder_quantity (adaptation (fulfilment a e)))
      (clamped_demand (fulfilment a e)) (ev_scenario e).
Proof.
  intros H. apply Qle_bool_iff in H.
  reorder_cases; [split; reflexivity | congruence].
Qed.

End StockoutReorder.

(** C9.  In a period in which fulfilment leaves demand unmet
    ([stockout_amount > 0]) and the stock after fulfilment is at or below
    the adapted reorder point, the decision returned and logged has action
    [intelligent_reorder], while the stockout counter has been incremented
    and the satisfaction score lowered by 2 (floored at 0). *)
Theorem stockout_period_reorder_overrides_action (a : Agent) (e : Event) :
  0 < stockout_amount (fulfilment a e) ->
  current_stock (after_demand (fulfilment a e))
  <= reorder_point (adaptation (fulfilment a e)) ->
  d_action (tentative (fulfilment a e)) = stockout /\
  d_action (snd (submit a e)) = intelligent_reorder /\
  decisions_log (step a e) = decisions_log a ++ [snd (submit a e)] /\
  stockouts (step a e) = (stockouts a + 1)%Z /\
  customer_satisfaction_score (step a e)
  = Z.max 0 (customer_satisfaction_score a - 2).
Proof.
  intros Hout Hlow.
  destruct (fulfilment_stockout_bookkeeping a e Hout) as (Hn & Hs & Ht).
  destruct (submit_reorder_action a e Hlow) as [Hact _].
  rewrite step_stockouts, step_customer_satisfaction_score.
  repeat split; try assumption. apply step_decisions_log.
Qed.

Lemma stockout_period_reorder_overrides_action_witness :
  d_action (tentative
              (fulfilment (IntelligentInventoryAgent 300 300 800) viral_spike))
  = stockout /\
  d_action (snd (submit (IntelligentInventoryAgent 300 300 800) viral_spike))
  = intelligent_reorder /\
  decisions_log (step (IntelligentInventoryAgent 300 300 800) viral_spike)
  = decisions_log (IntelligentInventoryAgent 300 300 800)
      ++ [snd (submit (IntelligentInventoryAgent 300 300 800) viral_spike)] /\
  stockouts (step (IntelligentInventoryAgent 300 300 800) viral_spike)
  = (stockouts (IntelligentInventoryAgent 300 300 800) + 1)%Z /\
  customer_satisfaction_score
    (step (IntelligentInventoryAgent 300 300 800) viral_spike)
  = Z.max 0
      (customer_satisfaction_score (IntelligentInventoryAgent 300 300 800) - 2).
Proof.
  apply (stockout_period_reorder_overrides_action
           (IntelligentInventoryAgent 300 300 800) viral_spike).
  - vm_compute. reflexivity.
  - vm_compute. discriminate.
Defined.

(** ** Reset *)

Section Reset.

Variable a : Agent.

Lemma reset_simulation_scenario_memory (initial_stock : option Q) :
  scenario_memory (reset_simulation a initial_stock) = scenario_memory a.
Proof.
  unfold reset_simulation.
  destruct initial_stock as [q|]; [destruct (Qeq_bool q 0)|]; reflexivity.
Qed.

Lemma reset_simulation_accumulators (initial_stock : option Q) :
  orders_placed (reset_simulation a initial_stock) = [] /\
  stockouts (reset_simulation a initial_stock) = 0%Z /\
  decisions_log (reset_simulation a initial_stock) = [] /\
  total_revenue (reset_simulation a initial_stock) = 0 /\
  total_costs (reset_simulation a initial_stock) = 0%Z /\
  customer_satisfaction_score (reset_simulation a initial_stock) = 100%Z.
Proof.
  unfold reset_simulation.
  destruct initial_stock as [q|]; [destruct (Qeq_bool q 0)|];
    repeat split; reflexivity.
Qed.

End Reset.

(** C10.  [reset_simulation(0)] sets the stock to the default 2000, exactly
    as [reset_simulation()] does, because [0] is falsy; any positive
    argument becomes the stock. *)
Theorem reset_simulation_zero_stock_is_default (a : Agent) :
  current_stock (reset_simulation a (Some 0)) = 2000 /\
  reset_simulation a (Some 0) = reset_simulation a None /\
  forall s : Q, 0 < s -> current_stock (reset_simulation a (Some s)) = s.
Proof.
  split; [reflexivity|]. split; [reflexivity|].
  intros s Hs. unfold reset_simulation.
  destruct (Qeq_bool s 0) eqn:E; [|reflexivity].
  apply Qeq_bool_eq in E. lra.
Qed.

Lemma reset_simulation_zero_stock_is_default_witness :
  0 < 500 /\ current_stock (reset_simulation default_agent (Some 500)) = 500.
Proof.
  split; [reflexivity|].
  apply (proj2 (proj2 (reset_simulation_zero_stock_is_default default_agent))).
  reflexivity.
Defined.

(** C5.  After one period and a [reset_simulation()], the stock, both logs,
    the stockout counter, revenue, costs and the satisfaction score are
    those of a fresh agent, but the scenario memory is the one from before
    the reset: it still holds the entry of the period, where a fresh agent
    has none. *)
Theorem reset_simulation_keeps_scenario_memory :
  current_stock (reset_simulation (step default_agent (normal_day 1)) None)
  = current_stock default_agent /\
  orders_placed (reset_simulation (step default_agent (normal_day 1)) None)
  = orders_placed default_agent /\
  decisions_log (reset_simulation (step default_agent (normal_day 1)) None)
  = decisions_log default_agent /\
  stockouts (reset_simulation (step default_agent (normal_day 1)) None)
  = stockouts default_agent /\
  total_revenue (reset_simulation (step default_agent (normal_day 1)) None)
  = total_revenue default_agent /\
  total_costs (reset_simulation (step default_agent (normal_day 1)) None)
  = total_costs default_agent /\
  customer_satisfaction_score
    (reset_simulation (step default_agent (normal_day 1)) None)
  = customer_satisfaction_score default_agent /\
  scenario_memory (reset_simulation (step default_agent (normal_day 1)) None)
  = scenario_memory (step default_agent (normal_day 1)) /\
  encounters <$>
    (scenario_memory
       (reset_simulation (step default_agent (normal_day 1)) None)
     !! "Normal_Operations") = Some 1%Z /\
  scenario_memory default_agent !! "Normal_Operations" = None.
Proof.
  repeat split; vm_compute; reflexivity.
Qed.

(** ** Negative predictions *)

Section NegativePrediction.

Variables (a : Agent) (e : Event).

Lemma submit_predicted_demand :
  d_predicted_demand (snd (submit a e)) = Qmax 0 (ev_predicted_demand e).
Proof.
  reorder_cases; cbn [d_predicted_demand]; unfold fulfilment;
    fulfil_cases; reflexivity.
Qed.


End NegativePrediction.




(** ** The trailing-demand heuristic *)

Section TrailingDemand.

Lemma last_n_nonempty {A} (n : nat) (l : list A) :
  (0 < n)%nat -> (n < length l)%nat -> last_n n l <> [].
Proof.
  intros Hn Hl H. apply (f_equal (@length A)) in H.
  unfold last_n in H. rewrite length_skipn in H. simpl in H. lia.
Qed.

(** With more than 7 logged decisions the heuristic runs. *)
Lemma smart_order_quantity_with_history
    (a : Agent) (base predicted : Q) (label : string) :
  (7 < length (decisions_log a))%nat ->
  _calculate_smart_order_quantity a base predicted label
  = int (Qmin
           (Qmax base
              (np_mean (map d_actual_demand (last_n 7 (decisions_log a)))
               * 7 * weeks_coverage label))
           (inject_Z (max_order_size a))).
Proof.
  intros Hlen. unfold _calculate_smart_order_quantity.
  apply Nat.ltb_lt in Hlen as Hb. rewrite Hb.
  destruct (map d_actual_demand (last_n 7 (decisions_log a))) eqn:E;
    [|reflexivity].
  apply map_eq_nil in E. apply last_n_nonempty in E; [tauto | lia | lia].
Qed.

(** With at most 7 logged decisions the base quantity is only capped. *)
Lemma smart_order_quantity_without_history
    (a : Agent) (base predicted : Q) (label : string) :
  (length (decisions_log a) <= 7)%nat ->
  _calculate_smart_order_quantity a base predicted label
  = int (Qmin base (inject_Z (max_order_size a))).
Proof.
  intros Hlen. unfold _calculate_smart_order_quantity.
  apply Nat.ltb_ge in Hlen. now rewrite Hlen.
Qed.

End TrailingDemand.

(** C2.  An agent built with stock 1100 has logged 7 periods of demand 100
    when the eighth period brings the stock down to the reorder point 300.
    The code then orders the base quantity 800: the trailing-demand
    heuristic is skipped, although 7 prior periods are recorded.  Sizing as
    the specification words it gives max(800, 100 * 7 * 2.5) = 1750. *)
Theorem heuristic_skipped_with_seven_prior_periods :
  length (decisions_log (run (IntelligentInventoryAgent 1100 300 800)
                           (normal_days 7))) = 7%nat /\
  d_action (snd (submit (run (IntelligentInventoryAgent 1100 300 800)
                           (normal_days 7)) (normal_day 8)))
  = intelligent_reorder /\
  d_order_quantity (snd (submit (run (IntelligentInventoryAgent 1100 300 800)
                                   (normal_days 7)) (normal_day 8)))
  = 800%Z /\
  spec_order_quantity
    (after_demand (fulfilment (run (IntelligentInventoryAgent 1100 300 800)
                                 (normal_days 7)) (normal_day 8)))
    (adaptation (fulfilment (run (IntelligentInventoryAgent 1100 300 800)
                               (normal_days 7)) (normal_day 8)))
  = 1750%Z.
Proof. repeat split; vm_compute; reflexivity. Qed.

(** C3.  After 12 periods under the label "Viral_Spike_Test" the thirteenth
    reorders.  The urgency tier of the period contains "Critical", yet the
    coverage the code selects is 2.5, because the string it tests is the
    scenario label: the order is max(2400, 700 * 2.5) = 2400, where a
    coverage of 4 gives max(2400, 700 * 4) = 2800.  Conversely a label
    that itself contains "Critical" gets coverage 4 under the tier
    "Normal". *)
Theorem weeks_coverage_tests_scenario_label :
  length (decisions_log (run default_agent (viral_days 12))) = 12%nat /\
  contains "Critical"
    (d_urgency_level
       (snd (submit (run default_agent (viral_days 12)) (viral_day 13))))
  = true /\
  weeks_coverage (ev_scenario (viral_day 13)) = 25 # 10 /\
  d_action (snd (submit (run default_agent (viral_days 12)) (viral_day 13)))
  = intelligent_reorder /\
  d_order_quantity
    (snd (submit (run default_agent (viral_days 12)) (viral_day 13)))
  = 2400%Z /\
  spec_order_quantity
    (after_demand (fulfilment (run default_agent (viral_days 12))
                     (viral_day 13)))
    (adaptation (fulfilment (run default_agent (viral_days 12))
                   (viral_day 13)))
  = 2800%Z /\
  urgency_level (adapt default_agent "Critical_Review") = "Normal" /\
  weeks_coverage "Critical_Review" = 4.
Proof. repeat split; vm_compute; reflexivity. Qed.

(** ** Eighteen days of normal operations *)

(** The first reorder of the run is not on day 18, so the three parts of
    the end-to-end example do not hold together. *)
Lemma first_reorder_not_on_day_18 :
  ~ (stockouts (run default_agent (normal_days 17)) = 0%Z /\
     first_reorder_day (trace default_agent (normal_days 18)) = Some 18%nat /\
     post_fulfilment_stock (run default_agent (normal_days 17))
       (normal_day 18) == 200).
Proof.
  intros (_ & H & _). vm_compute in H. discriminate.
Qed.

(** C1, as amended.  From the default agent (stock 2000, reorder point 300,
    reorder quantity 800), over 18 days of normal operations with predicted
    demand 100 and zero noise: no stockout is recorded through day 17, and
    the first decision with action [intelligent_reorder] is that of day 17,
    when the stock after fulfilment has reached 300, which is the reorder
    point. *)
Theorem normal_operations_first_reorder_on_day_17 :
  stockouts (run default_agent (normal_days 17)) = 0%Z /\
  first_reorder_day (trace default_agent (normal_days 18)) = Some 17%nat /\
  post_fulfilment_stock (run default_agent (normal_days 16)) (normal_day 17)
  == 300 /\
  reorder_point (adaptation (fulfilment (run default_agent (normal_days 16))
                               (normal_day 17))) == 300.
Proof. repeat split; vm_compute; reflexivity. Qed.

(** ** What one period does *)

Section PeriodEffects.

Variables (a : Agent) (e : Event).

Lemma submit_keeps_tentative :
  d_date (snd (submit a e)) = ev_date e /\
  d_scenario (snd (submit a e)) = ev_scenario e /\
  d_urgency_level (snd (submit a e))
  = urgency_level (adapt a (ev_scenario e)) /\
  d_current_stock_before (snd (submit a e)) = current_stock a /\
  d_actual_demand (snd (submit a e))
  = d_actual_demand (tentative (fulfilment a e)) /\
  d_demand_fulfilled (snd (submit a e))
  = d_demand_fulfilled (tentative (fulfilment a e)).
Proof.
  reorder_cases; decision_simpl; unfold fulfilment; fulfil_cases;
    repeat split; reflexivity.
Qed.

Lemma tentative_conservation :
  d_demand_fulfilled (tentative (fulfilment a e))
  + stockout_amount (fulfilment a e)
  == d_actual_demand (tentative (fulfilment a e)) /\
  current_stock (after_demand (fulfilment a e))
  == current_stock a - d_demand_fulfilled (tentative (fulfilment a e)) /\
  total_revenue (after_demand (fulfilment a e))
  == total_revenue a + d_demand_fulfilled (tentative (fulfilment a e)) * 50.
Proof.
  unfold fulfilment; fulfil_cases; repeat split; ring.
Qed.

Lemma fulfilment_frame :
  lead_time_days (after_demand (fulfilment a e)) = lead_time_days a /\
  total_costs (after_demand (fulfilment a e)) = total_costs a /\
  base_reorder_point (after_demand (fulfilment a e)) = base_reorder_point a /\
  safety_stock_multiplier (after_demand (fulfilment a e))
  = safety_stock_multiplier a.
Proof. unfold fulfilment; fulfil_cases; repeat split; reflexivity. Qed.

Lemma step_total_revenue :
  total_revenue (step a e) = total_revenue (after_demand (fulfilment a e)).
Proof. reorder_cases; reflexivity. Qed.

Lemma tentative_fulfilled_bounds :
  0 <= current_stock a ->
  0 <= d_demand_fulfilled (tentative (fulfilment a e))
       <= d_actual_demand (tentative (fulfilment a e)).
Proof.
  intros Hs. unfold fulfilment; fulfil_cases;
    try (apply Qle_bool_iff in Hfit);
    try (match goal with
         | H : Qle_bool ?x ?y = false |- _ =>
             assert (y < x)
               by (apply Qnot_le_lt; intros Hle;
                   apply Qle_bool_iff in Hle; congruence)
         end);
    split; try lra; try apply Q.le_max_l.
Qed.

Lemma tentative_stockout_iff :
  0 < stockout_amount (fulfilment a e) <->
  d_demand_fulfilled (tentative (fulfilment a e))
  < d_actual_demand (tentative (fulfilment a e)).
Proof.
  destruct tentative_conservation as (H & _ & _). split; intros; lra.
Qed.

Lemma tentative_branches :
  (d_actual_demand (tentative (fulfilment a e)) <= current_stock a ->
   d_demand_fulfilled (tentative (fulfilment a e))
   = d_actual_demand (tentative (fulfilment a e)) /\
   stockout_amount (fulfilment a e) = 0) /\
  (current_stock a < d_actual_demand (tentative (fulfilment a e)) ->
   d_demand_fulfilled (tentative (fulfilment a e)) = current_stock a /\
   current_stock (after_demand (fulfilment a e)) = 0 /\
   0 < stockout_amount (fulfilment a e)).
Proof.
  unfold fulfilment; fulfil_cases;
    try (apply Qle_bool_iff in Hfit);
    try (match goal with
         | H : Qle_bool ?x ?y = false |- _ =>
             assert (y < x)
               by (apply Qnot_le_lt; intros Hle;
                   apply Qle_bool_iff in Hle; congruence)
         end);
    (split; intros Hcase; [try lra | try lra]); repeat split; lra.
Qed.

Lemma submit_stock_after :
  d_current_stock_after (snd (submit a e)) = current_stock (step a e).
Proof.
  reorder_cases; decision_simpl; [reflexivity|].
  unfold fulfilment; fulfil_cases; reflexivity.
Qed.

End PeriodEffects.

(** X1.  Fulfilment stays within the stock and the demand.  With a
    non-negative stock, the fulfilled demand of a period is between 0 and
    the simulated demand and is at most the stock; when the demand fits the
    stock all of it is fulfilled and nothing is unmet; when it exceeds the
    stock the fulfilled demand is the whole stock, the stock drops to 0 and
    the unmet amount is positive; the stock after fulfilment is never
    negative. *)
Theorem fulfilment_within_stock_and_demand (a : Agent) (e : Event) :
  0 <= current_stock a ->
  0 <= d_demand_fulfilled (snd (submit a e))
       <= d_actual_demand (snd (submit a e)) /\
  d_demand_fulfilled (snd (submit a e)) <= current_stock a /\
  0 <= post_fulfilment_stock a e /\
  (d_actual_demand (snd (submit a e)) <= current_stock a ->
   d_demand_fulfilled (snd (submit a e)) = d_actual_demand (snd (submit a e))
   /\ stockout_amount (fulfilment a e) = 0) /\
  (current_stock a < d_actual_demand (snd (submit a e)) ->
   d_demand_fulfilled (snd (submit a e)) = current_stock a /\
   post_fulfilment_stock a e = 0 /\
   0 < stockout_amount (fulfilment a e)).
Proof.
  intros Hs.
  destruct (submit_keeps_tentative a e) as (_ & _ & _ & _ & -> & ->).
  destruct (tentative_branches a e) as [Hfit Hout].
  pose proof (tentative_fulfilled_bounds a e Hs) as Hb.
  unfold post_fulfilment_stock.
  split; [exact Hb|]. split; [|split; [|split; assumption]].
  - destruct (Qlt_le_dec (current_stock a)
                (d_actual_demand (tentative (fulfilment a e)))) as [H|H].
    + destruct (Hout H) as (-> & _). lra.
    + destruct (Hfit H) as (-> & _). exact H.
  - now apply fulfil_stock_nonneg.
Qed.

Lemma fulfilment_within_stock_and_demand_witness :
  0 <= d_demand_fulfilled
         (snd (submit (IntelligentInventoryAgent 300 300 800) viral_spike))
       <= d_actual_demand
            (snd (submit (IntelligentInventoryAgent 300 300 800) viral_spike))
  /\ d_demand_fulfilled
       (snd (submit (IntelligentInventoryAgent 300 300 800) viral_spike))
     <= current_stock (IntelligentInventoryAgent 300 300 800).
Proof.
  destruct (fulfilment_within_stock_and_demand
              (IntelligentInventoryAgent 300 300 800) viral_spike)
    as (H1 & H2 & _).
  - vm_compute. discriminate.
  - split; assumption.
Defined.

(** X2.  The decision of a period records the stock the agent had when the
    call started and the stock it has when the call returns, after both
    fulfilment and any reorder. *)
Theorem decision_records_stock_before_and_after (a : Agent) (e : Event) :
  d_current_stock_before (snd (submit a e)) = current_stock a /\
  d_current_stock_after (snd (submit a e)) = current_stock (step a e).
Proof.
  split; [apply submit_keeps_tentative | apply submit_stock_after].
Qed.

(** X3.  When the stock after fulfilment is above the adapted reorder point
    the period places no order: the order log and the total costs are
    unchanged, the decision has order quantity 0 and an action other than
    [intelligent_reorder], and the stock stays what fulfilment left. *)
Theorem no_reorder_above_reorder_point (a : Agent) (e : Event) :
  reorder_point (adaptation (fulfilment a e)) < post_fulfilment_stock a e ->
  orders_placed (step a e) = orders_placed a /\
  total_costs (step a e) = total_costs a /\
  d_order_quantity (snd (submit a e)) = 0%Z /\
  d_action (snd (submit a e)) <> intelligent_reorder /\
  current_stock (step a e) = post_fulfilment_stock a e.
Proof.
  unfold post_fulfilment_stock. intros H.
  reorder_cases.
  - apply Qle_bool_iff in Hlow. lra.
  - unfold fulfilment. rewrite fulfil_orders_placed.
    repeat split; try (fulfil_cases; reflexivity).
    fulfil_cases; discriminate.
Qed.

Lemma no_reorder_above_reorder_point_witness :
  orders_placed (step default_agent (normal_day 1))
  = orders_placed default_agent /\
  total_costs (step default_agent (normal_day 1)) = total_costs default_agent /\
  d_order_quantity (snd (submit default_agent (normal_day 1))) = 0%Z /\
  d_action (snd (submit default_agent (normal_day 1))) <> intelligent_reorder /\
  current_stock (step default_agent (normal_day 1))
  = post_fulfilment_stock default_agent (normal_day 1).
Proof.
  apply (no_reorder_above_reorder_point default_agent (normal_day 1)).
  vm_compute. reflexivity.
Defined.

(** X4.  When the stock after fulfilment is at or below the adapted reorder
    point the period appends exactly one order, for the quantity the
    decision reports, dated and labelled like the period, at a cost of 30
    per unit; the total costs grow by that cost and the stock by that
    quantity. *)
Theorem reorder_places_one_order (a : Agent) (e : Event) :
  post_fulfilment_stock a e <= reorder_point (adaptation (fulfilment a e)) ->
  orders_placed (step a e)
  = orders_placed a
      ++ [{| o_date := ev_date e;
             o_quantity := d_order_quantity (snd (submit a e));
             o_scenario := ev_scenario e;
             o_urgency := urgency_level (adapt a (ev_scenario e));
             o_cost := (d_order_quantity (snd (submit a e)) * 30)%Z;
             o_lead_time_expected := lead_time_days a |}] /\
  total_costs (step a e)
  = (total_costs a + d_order_quantity (snd (submit a e)) * 30)%Z /\
  current_stock (step a e)
  = post_fulfilment_stock a e + inject_Z (d_order_quantity (snd (submit a e))).
Proof.
  unfold post_fulfilment_stock. intros H. apply Qle_bool_iff in H.
  destruct (fulfilment_frame a e) as (Hlead & Hcost & _).
  reorder_cases; [|congruence].
  cbn [lead_time_days set_current_stock].
  rewrite Hlead, Hcost.
  unfold fulfilment. rewrite fulfil_orders_placed, fulfil_adaptation.
  repeat split.
Qed.

Lemma reorder_places_one_order_witness :
  length (orders_placed (step (IntelligentInventoryAgent 300 300 800)
                           viral_spike)) = 1%nat /\
  total_costs (step (IntelligentInventoryAgent 300 300 800) viral_spike)
  = 72000%Z.
Proof.
  destruct (reorder_places_one_order
              (IntelligentInventoryAgent 300 300 800) viral_spike)
    as (Ho & Hc & _).
  - vm_compute. discriminate.
  - rewrite Ho, Hc. split; reflexivity.
Defined.

(** ** Accounting over a run *)

Section Accounting.

Lemma Zsum_app (l1 l2 : list Z) : Zsum (l1 ++ l2) = (Zsum l1 + Zsum l2)%Z.
Proof.
  unfold Zsum. induction l1 as [|x l1 IH]; simpl; [reflexivity|].
  rewrite IH. lia.
Qed.

Lemma Qle_bool_shift (x y : Q) : Qle_bool (x - y) 0 = Qle_bool x y.
Proof.
  destruct (Qle_bool x y) eqn:E.
  - apply Qle_bool_iff in E. apply Qle_bool_iff. lra.
  - destruct (Qle_bool (x - y) 0) eqn:E'; [|reflexivity].
    apply Qle_bool_iff in E'.
    assert (Qle_bool x y = true) by (apply Qle_bool_iff; lra). congruence.
Qed.

Lemma Qgt_bool_irrefl (x : Q) : Qgt_bool x x = false.
Proof.
  unfold Qgt_bool. apply negb_false_iff, Qle_bool_iff. lra.
Qed.

Lemma Qgt_bool_false_le (x y : Q) : Qgt_bool x y = false -> x <= y.
Proof.
  unfold Qgt_bool. intros H. apply negb_false_iff in H.
  now apply Qle_bool_iff.
Qed.

Variables (a : Agent) (e : Event).

Lemma submit_unmet :
  unmet (snd (submit a e)) = Qgt_bool (stockout_amount (fulfilment a e)) 0.
Proof.
  unfold unmet.
  destruct (submit_keeps_tentative a e) as (_ & _ & _ & _ & -> & ->).
  unfold fulfilment, fulfil_period, analyze_scenario_and_adapt,
    _process_demand; cbn.
  match goal with
  | |- context [Qle_bool ?x ?y] => destruct (Qle_bool x y); cbn
  end.
  - now rewrite Qgt_bool_irrefl.
  - unfold Qgt_bool. now rewrite Qle_bool_shift.
Qed.

Lemma step_stockouts_score :
  (stockouts (step a e)
   = stockouts a + (if unmet (snd (submit a e)) then 1 else 0))%Z /\
  customer_satisfaction_score (step a e)
  = (if unmet (snd (submit a e))
     then Z.max 0 (customer_satisfaction_score a - 2)
     else customer_satisfaction_score a).
Proof.
  rewrite submit_unmet, step_stockouts, step_customer_satisfaction_score.
  unfold fulfilment; fulfil_cases; split; try reflexivity; try lia;
    vm_compute in Hout; discriminate.
Qed.

Lemma submit_stockout_unmet :
  is_stockout (snd (submit a e)) = true -> unmet (snd (submit a e)) = true.
Proof.
  rewrite submit_unmet. unfold is_stockout.
  reorder_cases; decision_simpl; [discriminate|].
  unfold fulfilment; fulfil_cases; try discriminate; try reflexivity.
  all: vm_compute in Hout; discriminate.
Qed.

Lemma tentative_labels :
  d_date (tentative (fulfilment a e)) = ev_date e /\
  d_scenario (tentative (fulfilment a e)) = ev_scenario e /\
  d_urgency_level (tentative (fulfilment a e))
  = urgency_level (adaptation (fulfilment a e)).
Proof. unfold fulfilment; fulfil_cases; repeat split; reflexivity. Qed.

Lemma step_orders_summary :
  map order_summary (orders_placed (step a e))
  = map order_summary (orders_placed a)
      ++ map decision_summary
           (List.filter is_reorder [snd (submit a e)]).
Proof.
  unfold is_reorder. reorder_cases; decision_simpl; cbn [List.filter].
  - rewrite map_app. unfold fulfilment at 1.
    rewrite fulfil_orders_placed. f_equal.
    cbn [map order_summary decision_summary o_date o_quantity o_scenario
           o_urgency]. decision_simpl.
    destruct tentative_labels as (-> & -> & ->). reflexivity.
  - unfold fulfilment at 1. rewrite fulfil_orders_placed.
    assert (d_action (tentative (fulfilment a e)) <> intelligent_reorder) as H.
    { unfold fulfilment; fulfil_cases; discriminate. }
    destruct (d_action (tentative (fulfilment a e))); try congruence;
      now rewrite app_nil_r.
Qed.

Lemma step_costs_delta :
  (total_costs (step a e) - total_costs a
   = 30 * (Zsum (map o_quantity (orders_placed (step a e)))
           - Zsum (map o_quantity (orders_placed a))))%Z.
Proof.
  destruct (fulfilment_frame a e) as (_ & Hcost & _).
  reorder_cases; unfold fulfilment in *; rewrite fulfil_orders_placed.
  - rewrite Hcost, map_app, Zsum_app. cbn [map Zsum fold_right o_quantity].
    lia.
  - rewrite Hcost. lia.
Qed.

End Accounting.

Section RunAccounting.

Lemma run_decisions_log (a : Agent) (es : list Event) :
  exists new,
    decisions_log (run a es) = decisions_log a ++ new /\
    map d_scenario new = map ev_scenario es /\
    map d_date new = map ev_date es /\
    map d_predicted_demand new
    = map (fun e => Qmax 0 (ev_predicted_demand e)) es.
Proof.
  revert a; induction es as [|e es IH]; intros a.
  - exists []. now rewrite app_nil_r.
  - destruct (IH (step a e)) as (new & Hlog & Hs & Hd & Hp).
    exists (snd (submit a e) :: new).
    rewrite run_cons, Hlog, step_decisions_log, <- app_assoc.
    destruct (submit_keeps_tentative a e) as (Hdate & Hscen & _).
    cbn [map app]. rewrite Hs, Hd, Hp, Hdate, Hscen, submit_predicted_demand.
    repeat split.
Qed.

End RunAccounting.

(** X5.  The decision log is append-only and in period order: a run adds
    exactly one decision per submitted event, carrying that event's label,
    date and clamped prediction, after the decisions already logged. *)
Theorem decisions_log_is_append_only (a : Agent) (es : list Event) :
  exists new,
    decisions_log (run a es) = decisions_log a ++ new /\
    length new = length es /\
    map d_scenario new = map ev_scenario es /\
    map d_date new = map ev_date es /\
    map d_predicted_demand new
    = map (fun e => Qmax 0 (ev_predicted_demand e)) es.
Proof.
  destruct (run_decisions_log a es) as (new & Hlog & Hs & Hd & Hp).
  exists new. repeat split; try assumption.
  apply (f_equal (@length string)) in Hs. now rewrite !length_map in Hs.
Qed.

Section RunInvariants.

(** A property kept by every period is kept by every run. *)
Lemma run_invariant (P : Agent -> Prop) :
  (forall a e, P a -> P (step a e)) ->
  forall es a, P a -> P (run a es).
Proof.
  intros Hstep es; induction es as [|e es IH]; intros a Ha; [exact Ha|].
  rewrite run_cons. apply IH, Hstep, Ha.
Qed.

Lemma step_costs_invariant (a : Agent) (e : Event) :
  total_costs a = (30 * Zsum (map o_quantity (orders_placed a)))%Z ->
  total_costs (step a e)
  = (30 * Zsum (map o_quantity (orders_placed (step a e))))%Z.
Proof. pose proof (step_costs_delta a e). lia. Qed.

Lemma step_orders_invariant (a : Agent) (e : Event) :
  map order_summary (orders_placed a)
  = map decision_summary (List.filter is_reorder (decisions_log a)) ->
  map order_summary (orders_placed (step a e))
  = map decision_summary (List.filter is_reorder (decisions_log (step a e))).
Proof.
  intros H.
  now rewrite step_orders_summary, step_decisions_log, List.filter_app,
    map_app, H.
Qed.

Lemma step_stockouts_invariant (a : Agent) (e : Event) :
  stockouts a = Z.of_nat (length (List.filter unmet (decisions_log a))) /\
  customer_satisfaction_score a = Z.max 0 (100 - 2 * stockouts a) ->
  stockouts (step a e)
  = Z.of_nat (length (List.filter unmet (decisions_log (step a e)))) /\
  customer_satisfaction_score (step a e)
  = Z.max 0 (100 - 2 * stockouts (step a e)).
Proof.
  intros [Hn Hs].
  destruct (step_stockouts_score a e) as [Hn' Hs'].
  rewrite Hn', Hs', step_decisions_log, List.filter_app, length_app.
  cbn [List.filter]. destruct (unmet (snd (submit a e))); cbn [length]; lia.
Qed.

Lemma step_stockout_actions_invariant (a : Agent) (e : Event) :
  (Z.of_nat (length (List.filter is_stockout (decisions_log a)))
   <= stockouts a)%Z ->
  (Z.of_nat (length (List.filter is_stockout (decisions_log (step a e))))
   <= stockouts (step a e))%Z.
Proof.
  intros H.
  destruct (step_stockouts_score a e) as [Hn' _].
  pose proof (submit_stockout_unmet a e) as Hu.
  rewrite Hn', step_decisions_log, List.filter_app, length_app.
  cbn [List.filter].
  destruct (is_stockout (snd (submit a e)));
    [rewrite Hu by reflexivity|destruct (unmet (snd (submit a e)))];
    cbn [length]; lia.
Qed.

End RunInvariants.

(** X6.  For an agent built by the constructor, after any run the total
    costs are 30 times the units ordered, and the order log lists, in order,
    exactly the periods whose decision is a reorder, with the decision's
    date, quantity, label and urgency tier. *)
Theorem orders_match_reorder_decisions
    (initial_stock point quantity : Q) (es : list Event) :
  let a := run (IntelligentInventoryAgent initial_stock point quantity) es in
  total_costs a = (30 * Zsum (map o_quantity (orders_placed a)))%Z /\
  map order_summary (orders_placed a)
  = map decision_summary (List.filter is_reorder (decisions_log a)).
Proof.
  split.
  - apply (run_invariant
             (fun a => total_costs a
                       = (30 * Zsum (map o_quantity (orders_placed a)))%Z));
      [apply step_costs_invariant | reflexivity].
  - apply (run_invariant
             (fun a => map order_summary (orders_placed a)
                       = map decision_summary
                           (List.filter is_reorder (decisions_log a))));
      [apply step_orders_invariant | reflexivity].
Qed.

(** X7.  Revenue never decreases: from a state with non-negative stock,
    base reorder quantity and maximum order size, after any run one more
    period leaves [total_revenue] at least what it was. *)
Theorem total_revenue_never_decreases
    (a : Agent) (es : list Event) (e : Event) :
  0 <= current_stock a ->
  0 <= base_reorder_quantity a ->
  (0 <= max_order_size a)%Z ->
  total_revenue (run a es) <= total_revenue (run a (es ++ [e])).
Proof.
  intros Hs Hq Hm.
  pose proof (run_current_stock_nonneg a es Hs Hq Hm) as Hstock.
  rewrite run_snoc, step_total_revenue.
  destruct (tentative_conservation (run a es) e) as (_ & _ & Hr).
  pose proof (tentative_fulfilled_bounds (run a es) e Hstock) as [Hlo _].
  lra.
Qed.

Lemma total_revenue_never_decreases_witness :
  total_revenue (run default_agent (normal_days 3))
  <= total_revenue (run default_agent (normal_days 3 ++ [normal_day 4])).
Proof.
  apply (total_revenue_never_decreases default_agent (normal_days 3)
           (normal_day 4));
    vm_compute; discriminate.
Defined.

(** X8.  For an agent built by the constructor, after any run the stockout
    counter is the number of logged periods whose simulated demand exceeded
    what was fulfilled, the satisfaction score is max(0, 100 - 2 *
    stockouts), and the decisions whose action is [stockout] are at most
    that many: a stockout period that also reorders is logged as a
    reorder. *)
Theorem stockouts_count_unmet_periods
    (initial_stock point quantity : Q) (es : list Event) :
  let a := run (IntelligentInventoryAgent initial_stock point quantity) es in
  stockouts a = Z.of_nat (length (List.filter unmet (decisions_log a))) /\
  customer_satisfaction_score a = Z.max 0 (100 - 2 * stockouts a) /\
  (Z.of_nat (length (List.filter is_stockout (decisions_log a)))
   <= stockouts a)%Z.
Proof.
  cbv zeta. apply and_assoc. split.
  - apply (run_invariant
             (fun a =>
                stockouts a
                = Z.of_nat (length (List.filter unmet (decisions_log a))) /\
                customer_satisfaction_score a
                = Z.max 0 (100 - 2 * stockouts a)));
      [apply step_stockouts_invariant | split; reflexivity].
  - apply (run_invariant
             (fun a =>
                (Z.of_nat (length (List.filter is_stockout (decisions_log a)))
                 <= stockouts a)%Z));
      [apply step_stockout_actions_invariant | reflexivity].
Qed.

(** ** The policy table *)

Section Policy.

Lemma adapt_ext (a b : Agent) (label : string) :
  base_reorder_point a = base_reorder_point b ->
  base_reorder_quantity a = base_reorder_quantity b ->
  max_order_size a = max_order_size b ->
  adapt a label = adapt b label.
Proof. intros Hp Hq Hm. unfold adapt. now rewrite Hp, Hq, Hm. Qed.

Lemma step_base_reorder_point (a : Agent) (e : Event) :
  base_reorder_point (step a e) = base_reorder_point a.
Proof.
  destruct (fulfilment_frame a e) as (_ & _ & Hp & _).
  reorder_cases; exact Hp.
Qed.

Lemma apply_call_adapt (a : Agent) (c : Call) (label : string) :
  adapt (apply_call a c) label = adapt a label.
Proof.
  destruct c as [e|o]; cbn [apply_call]; apply adapt_ext.
  - apply step_base_reorder_point.
  - apply step_base_reorder_quantity.
  - apply step_max_order_size.
  - unfold reset_simulation. now destruct o as [q|]; [destruct (Qeq_bool q 0)|].
  - unfold reset_simulation. now destruct o as [q|]; [destruct (Qeq_bool q 0)|].
  - unfold reset_simulation. now destruct o as [q|]; [destruct (Qeq_bool q 0)|].
Qed.

Lemma run_calls_cons (a : Agent) (c : Call) (cs : list Call) :
  run_calls a (c :: cs) = run_calls (apply_call a c) cs.
Proof. reflexivity. Qed.

Lemma run_calls_snoc (a : Agent) (cs : list Call) (c : Call) :
  run_calls a (cs ++ [c]) = apply_call (run_calls a cs) c.
Proof. unfold run_calls. now rewrite fold_left_app. Qed.

Lemma run_calls_adapt (a : Agent) (cs : list Call) (label : string) :
  adapt (run_calls a cs) label = adapt a label.
Proof.
  revert a; induction cs as [|c cs IH]; intros a; [reflexivity|].
  now rewrite run_calls_cons, IH, apply_call_adapt.
Qed.

End Policy.

(** X9.  The policy of a label is static: whatever periods and resets an
    agent has gone through, stock, logs and scenario memory included, the
    adapted reorder point, reorder quantity, urgency tier and strategy note
    of every label are the ones the agent started with. *)
Theorem policy_is_static (a : Agent) (cs : list Call) (label : string) :
  adapt (run_calls a cs) label = adapt a label.
Proof. apply run_calls_adapt. Qed.

(** X10.  With non-negative base values and maximum order size, every label
    is adapted to a reorder point between half and three times the base
    reorder point, and to a reorder quantity that is non-negative, at most
    four times the base quantity, and at most the larger of the base
    quantity and the maximum order size. *)
Theorem adapted_policy_bounds (a : Agent) (label : string) :
  0 <= base_reorder_point a ->
  0 <= base_reorder_quantity a ->
  (0 <= max_order_size a)%Z ->
  base_reorder_point a * (1 # 2) <= reorder_point (adapt a label)
  /\ reorder_point (adapt a label) <= base_reorder_point a * 3
  /\ 0 <= reorder_quantity (adapt a label)
  /\ reorder_quantity (adapt a label) <= base_reorder_quantity a * 4
  /\ reorder_quantity (adapt a label)
     <= Qmax (base_reorder_quantity a) (inject_Z (max_order_size a)).
Proof.
  intros Hp Hq Hm. apply inject_Z_nonneg in Hm.
  pose proof (Q.le_max_l (base_reorder_quantity a)
                (inject_Z (max_order_size a))) as Hl.
  pose proof (Q.le_max_r (base_reorder_quantity a)
                (inject_Z (max_order_size a))) as Hr.
  set (top := Qmax (base_reorder_quantity a) (inject_Z (max_order_size a)))
    in *.
  unfold adapt.
  repeat match goal with
         | |- context [if ?c then _ else _] => destruct c
         end; cbn [reorder_point reorder_quantity];
    repeat match goal with
           | |- context [Qmin ?x ?y] =>
               pose proof (Q.le_min_l x y); pose proof (Q.le_min_r x y);
               assert (0 <= Qmin x y) by (apply Q.min_glb; lra);
               generalize dependent (Qmin x y); intros
           end;
    repeat split; lra.
Qed.

Lemma adapted_policy_bounds_witness :
  base_reorder_point default_agent * (1 # 2)
  <= reorder_point (adapt default_agent "Black_Friday_2024")
  /\ reorder_point (adapt default_agent "Black_Friday_2024")
     <= base_reorder_point default_agent * 3
  /\ 0 <= reorder_quantity (adapt default_agent "Black_Friday_2024")
  /\ reorder_quantity (adapt default_agent "Black_Friday_2024")
     <= base_reorder_quantity default_agent * 4
  /\ reorder_quantity (adapt default_agent "Black_Friday_2024")
     <= Qmax (base_reorder_quantity default_agent)
          (inject_Z (max_order_size default_agent)).
Proof.
  apply (adapted_policy_bounds default_agent "Black_Friday_2024");
    vm_compute; discriminate.
Defined.

(** ** Scenario memory across periods and resets *)

Section MemoryHistory.

Lemma events_of_snoc (cs : list Call) (c : Call) :
  events_of (cs ++ [c])
  = events_of cs ++ match c with
                    | call_event e => [e]
                    | call_reset _ => []
                    end.
Proof.
  unfold events_of. rewrite flat_map_app. cbn [flat_map].
  now rewrite app_nil_r.
Qed.

Lemma recorded_snoc (label : string) (es : list Event) (e : Event) :
  recorded label (es ++ [e])
  = recorded label es
      ++ (if String.eqb (ev_scenario e) label
          then [Qmax 0 (ev_predicted_demand e)] else []).
Proof.
  unfold recorded. rewrite submitted_snoc, map_app.
  now destruct (String.eqb (ev_scenario e) label).
Qed.

Lemma update_scenario_memory_history
    (a0 a : Agent) (es : list Event) (e : Event) :
  memory_exact (scenario_memory a) es ->
  memory_history a0 (scenario_memory a) es ->
  memory_history a0
    (scenario_memory
       (_update_scenario_memory a (ev_scenario e)
          (Qmax 0 (ev_predicted_demand e))
          (urgency_level (adapt a0 (ev_scenario e)))))
    (es ++ [e]).
Proof.
  intros Hex Hh label m.
  unfold _update_scenario_memory. agent_simpl.
  rewrite recorded_snoc, submitted_snoc.
  destruct (String.eqb_spec (ev_scenario e) label) as [->|Hne].
  - rewrite lookup_insert_eq. intros [= <-].
    cbn [successful_strategies max_demand].
    rewrite length_app. cbn [length]. rewrite repeat_app. cbn [repeat].
    set (d := Qmax 0 (ev_predicted_demand e)).
    assert (0 <= d) as Hd by apply Q.le_max_l.
    specialize (Hex label). specialize (Hh label).
    destruct (scenario_memory a !! label) as [m0|]; cbn [from_option];
      unfold id.
    + destruct (Hh m0 eq_refl) as (Hs & Hall & d0 & Hin & Hd0).
      split; [now rewrite Hs|]. split.
      * apply Forall_app. split.
        -- eapply Forall_impl; [exact Hall|]. cbn. intros x Hx.
           eapply Qle_trans; [exact Hx | apply Q.le_max_l].
        -- constructor; [apply Q.le_max_r | constructor].
      * destruct (Q.max_spec (max_demand m0) d) as [[_ Hm]|[_ Hm]].
        -- exists d. split; [apply in_or_app; right; now left | exact Hm].
        -- exists d0. split; [apply in_or_app; now left|].
           now rewrite Hm.
    + unfold recorded. rewrite Hex. cbn [fresh_memory successful_strategies
        max_demand map app length repeat].
      split; [reflexivity|]. split.
      * constructor; [apply Q.le_max_r | constructor].
      * exists d. split; [now left | now apply Q.max_r].
  - rewrite lookup_insert_ne by exact Hne. rewrite !app_nil_r.
    apply Hh.
Qed.

Lemma apply_call_memory
    (a0 a : Agent) (es : list Event) (c : Call) :
  (forall label, adapt a label = adapt a0 label) ->
  memory_exact (scenario_memory a) es /\
  memory_history a0 (scenario_memory a) es ->
  memory_exact (scenario_memory (apply_call a c))
    (es ++ match c with call_event e => [e] | call_reset _ => [] end) /\
  memory_history a0 (scenario_memory (apply_call a c))
    (es ++ match c with call_event e => [e] | call_reset _ => [] end).
Proof.
  intros Hpol [Hex Hh].
  destruct c as [e|o]; cbn [apply_call].
  - rewrite step_scenario_memory. split.
    + now apply update_scenario_memory_exact.
    + rewrite Hpol. now apply update_scenario_memory_history.
  - now rewrite reset_simulation_scenario_memory, app_nil_r.
Qed.

Lemma run_calls_memory (a : Agent) (cs : list Call) :
  scenario_memory a = ∅ ->
  memory_exact (scenario_memory (run_calls a cs)) (events_of cs) /\
  memory_history a (scenario_memory (run_calls a cs)) (events_of cs).
Proof.
  intros Hempty.
  induction cs as [|c cs IH] using rev_ind.
  - cbn. rewrite Hempty. split.
    + intros label. now rewrite lookup_empty.
    + intros label m. now rewrite lookup_empty.
  - rewrite run_calls_snoc, events_of_snoc.
    apply apply_call_memory; [|exact IH].
    intros label. apply run_calls_adapt.
Qed.

End MemoryHistory.

Section OwnPeriods.

Lemma run_as_calls (a : Agent) (es : list Event) :
  run_calls a (map call_event es) = run a es /\
  events_of (map call_event es) = es.
Proof.
  split.
  - revert a; induction es as [|e es IH]; intros a; [reflexivity|].
    cbn [map]. now rewrite run_calls_cons, run_cons, IH.
  - induction es as [|e es IH]; [reflexivity|].
    cbn [map]. unfold events_of in *. cbn [flat_map app]. now rewrite IH.
Qed.

Lemma run_adapt (a : Agent) (es : list Event) (label : string) :
  adapt (run a es) label = adapt a label.
Proof.
  destruct (run_as_calls a es) as [<- _]. apply run_calls_adapt.
Qed.

(** The entry of a label is written by the periods of that label only:
    periods under other labels and resets leave it as it is. *)
Lemma run_calls_entry_own_periods
    (a : Agent) (cs : list Call) (label : string) :
  scenario_memory (run_calls a cs) !! label
  = scenario_memory (run a (submitted label (events_of cs))) !! label.
Proof.
  induction cs as [|c cs IH] using rev_ind; [reflexivity|].
  rewrite run_calls_snoc, events_of_snoc.
  destruct c as [e|o]; cbn [apply_call].
  - rewrite submitted_snoc, step_scenario_memory, run_calls_adapt.
    destruct (String.eqb_spec (ev_scenario e) label) as [Heq|Hne].
    + rewrite run_snoc, step_scenario_memory, run_adapt.
      unfold _update_scenario_memory. agent_simpl.
      rewrite Heq, !lookup_insert_eq, IH. reflexivity.
    + rewrite app_nil_r.
      unfold _update_scenario_memory. agent_simpl.
      rewrite lookup_insert_ne by exact Hne. exact IH.
  - rewrite reset_simulation_scenario_memory, app_nil_r. exact IH.
Qed.


(** In the exact-arithmetic model the counter and the mean of an entry are
    those of [running_memory_with] at the rationals, on the demands
    recorded under the label: the recurrence replayed on doubles by
    [running_mean_double] is the one the agent runs. *)
Lemma model_entry_is_running_memory
    (a : Agent) (es : list Event) (label : string) (m : Memory) :
  scenario_memory a = ∅ ->
  scenario_memory (run a es) !! label = Some m ->
  (encounters m, avg_demand m)
  = running_memory_with 0 inject_Z Qplus Qmult Qdiv (recorded label es).
Proof.
  intros Hempty. revert m.
  induction es as [|e es IH] using rev_ind; intros m.
  - cbn. rewrite Hempty, lookup_empty. discriminate.
  - rewrite run_snoc, step_scenario_memory, recorded_snoc.
    unfold _update_scenario_memory. agent_simpl.
    destruct (String.eqb_spec (ev_scenario e) label) as [Heq|Hne].
    + subst label. rewrite lookup_insert_eq. intros [= <-].
      cbn [encounters avg_demand].
      unfold running_memory_with. rewrite fold_left_app. cbn [fold_left].
      fold (running_memory_with 0 inject_Z Qplus Qmult Qdiv
              (recorded (ev_scenario e) es)).
      pose proof (run_memory_exact a es Hempty (ev_scenario e)) as Hex.
      destruct (scenario_memory (run a es) !! ev_scenario e) as [m0|].
      * rewrite <- (IH m0 eq_refl). reflexivity.
      * unfold recorded. rewrite Hex. reflexivity.
    + rewrite lookup_insert_ne by exact Hne. rewrite app_nil_r. apply IH.
Qed.

End OwnPeriods.




(** X11.  Resets do not clear what the agent has learnt: starting from an
    empty scenario memory, after any sequence of periods and resets every
    entry counts all periods ever submitted under its label, the periods
    before the last reset included, and is exactly the entry that those
    periods produce when run alone with no reset in between. *)
Theorem scenario_memory_survives_resets
    (a : Agent) (cs : list Call) (label : string) (m : Memory) :
  scenario_memory a = ∅ ->
  scenario_memory (run_calls a cs) !! label = Some m ->
  encounters m = Z.of_nat (length (submitted label (events_of cs))) /\
  scenario_memory (run a (submitted label (events_of cs))) !! label = Some m.
Proof.
  intros Hempty Hm.
  destruct (run_calls_memory a cs Hempty) as [Hex _].
  specialize (Hex label). rewrite Hm in Hex.
  destruct Hex as (_ & Hn & _). split; [exact Hn|].
  now rewrite <- run_calls_entry_own_periods.
Qed.

Lemma scenario_memory_survives_resets_witness :
  exists m,
    scenario_memory (run_calls default_agent reset_between)
    !! "Normal_Operations" = Some m /\
    encounters m
    = Z.of_nat (length (submitted "Normal_Operations"
                          (events_of reset_between))) /\
    scenario_memory
      (run default_agent
         (submitted "Normal_Operations" (events_of reset_between)))
    !! "Normal_Operations" = Some m.
Proof.
  eexists. split.
  - vm_compute. reflexivity.
  - apply (scenario_memory_survives_resets default_agent reset_between
             "Normal_Operations");
      vm_compute; reflexivity.
Defined.

(** X12.  Starting from an empty scenario memory, after any sequence of
    periods and resets the urgency history of an entry is the policy tier
    of its label repeated once per period, and its [max_demand] is the
    largest demand recorded under the label: no recorded demand exceeds it
    and one of them equals it. *)
Theorem scenario_memory_max_and_history
    (a : Agent) (cs : list Call) (label : string) (m : Memory) :
  scenario_memory a = ∅ ->
  scenario_memory (run_calls a cs) !! label = Some m ->
  successful_strategies m
  = repeat (urgency_level (adapt a label))
      (length (submitted label (events_of cs))) /\
  Forall (fun d => d <= max_demand m) (recorded label (events_of cs)) /\
  exists d, In d (recorded label (events_of cs)) /\ max_demand m == d.
Proof.
  intros Hempty Hm.
  destruct (run_calls_memory a cs Hempty) as [_ Hh].
  exact (Hh label m Hm).
Qed.

Lemma scenario_memory_max_and_history_witness :
  exists m,
    scenario_memory (run_calls default_agent reset_between)
    !! "Normal_Operations" = Some m /\
    successful_strategies m
    = repeat (urgency_level (adapt default_agent "Normal_Operations"))
        (length (submitted "Normal_Operations" (events_of reset_between))) /\
    Forall (fun d => d <= max_demand m)
      (recorded "Normal_Operations" (events_of reset_between)) /\
    exists d,
      In d (recorded "Normal_Operations" (events_of reset_between)) /\
      max_demand m == d.
Proof.
  eexists. split.
  - vm_compute. reflexivity.
  - apply (scenario_memory_max_and_history default_agent reset_between
             "Normal_Operations");
      vm_compute; reflexivity.
Defined.

Lemma submitted_nonempty (label : string) (es : list Event) :
  submitted label es <> [] <-> In label (map ev_scenario es).
Proof.
  unfold submitted. induction es as [|e es IH]; cbn [List.filter map In].
  - split; [intros H; now apply H | intros []].
  - destruct (String.eqb_spec (ev_scenario e) label) as [Heq|Hne].
    + split; [now left | discriminate].
    + rewrite IH. split; [now right | intros [H|H]; [contradiction|exact H]].
Qed.

(** X13.  Entries of the scenario memory are created on the first period of
    a label and never removed: starting from an empty memory, after any
    sequence of periods and resets a label has an entry exactly when a
    period was submitted under it. *)
Theorem scenario_memory_entries
    (a : Agent) (cs : list Call) (label : string) :
  scenario_memory a = ∅ ->
  (is_Some (scenario_memory (run_calls a cs) !! label) <->
   In label (map ev_scenario (events_of cs))).
Proof.
  intros Hempty.
  destruct (run_calls_memory a cs Hempty) as [Hex _].
  specialize (Hex label).
  rewrite <- submitted_nonempty.
  destruct (scenario_memory (run_calls a cs) !! label) as [m|].
  - destruct Hex as (Hpos & Hn & _). split; [|eauto].
    intros _ H. rewrite H in Hn. cbn in Hn. lia.
  - rewrite Hex. split; [intros [? [=]] | congruence].
Qed.

Lemma scenario_memory_entries_witness :
  is_Some (scenario_memory (run_calls default_agent reset_between)
           !! "Normal_Operations") <->
  In "Normal_Operations" (map ev_scenario (events_of reset_between)).
Proof.
  apply (scenario_memory_entries default_agent reset_between
           "Normal_Operations").
  reflexivity.
Defined.

Section CallsStock.

Lemma reset_simulation_config (a : Agent) (o : option Q) :
  base_reorder_point (reset_simulation a o) = base_reorder_point a /\
  base_reorder_quantity (reset_simulation a o) = base_reorder_quantity a /\
  max_order_size (reset_simulation a o) = max_order_size a.
Proof.
  unfold reset_simulation.
  now destruct o as [q|]; [destruct (Qeq_bool q 0)|].
Qed.

Lemma apply_call_stock_nonneg (a : Agent) (c : Call) :
  nonneg_reset c ->
  0 <= current_stock a /\ 0 <= base_reorder_quantity a /\
  (0 <= max_order_size a)%Z ->
  0 <= current_stock (apply_call a c) /\
  0 <= base_reorder_quantity (apply_call a c) /\
  (0 <= max_order_size (apply_call a c))%Z.
Proof.
  intros Hc (Hs & Hq & Hm). destruct c as [e|o]; cbn [apply_call].
  - rewrite step_base_reorder_quantity, step_max_order_size.
    repeat split; try assumption. now apply step_current_stock_nonneg.
  - destruct (reset_simulation_config a o) as (_ & -> & ->).
    repeat split; try assumption.
    unfold reset_simulation.
    destruct o as [q|]; [destruct (Qeq_bool q 0)|]; cbn; try discriminate.
    exact Hc.
Qed.

End CallsStock.

(** X14.  The stock stays non-negative across resets as well: from a state
    with non-negative stock, base reorder quantity and maximum order size,
    any sequence of periods and of resets whose argument, when given, is
    non-negative leaves a non-negative stock. *)
Theorem stock_nonneg_across_resets (a : Agent) (cs : list Call) :
  0 <= current_stock a ->
  0 <= base_reorder_quantity a ->
  (0 <= max_order_size a)%Z ->
  Forall nonneg_reset cs ->
  0 <= current_stock (run_calls a cs).
Proof.
  intros Hs Hq Hm Hcs.
  assert (0 <= current_stock a /\ 0 <= base_reorder_quantity a /\
          (0 <= max_order_size a)%Z) as H by tauto.
  clear Hs Hq Hm. revert a H.
  induction Hcs as [|c cs Hc _ IH]; intros a H; [apply H|].
  rewrite run_calls_cons. apply IH. now apply apply_call_stock_nonneg.
Qed.

Lemma stock_nonneg_across_resets_witness :
  0 <= current_stock (run_calls default_agent reset_between).
Proof.
  apply (stock_nonneg_across_resets default_agent reset_between);
    try (vm_compute; discriminate).
  repeat constructor.
Defined.

(** ** More on order sizing *)

Section Truncation.

Lemma int_nonneg_floor (q : Q) : (0 <= Qnum q)%Z -> int q = Qfloor q.
Proof.
  destruct q as [n d]; unfold int; cbn [Qnum Qden Qfloor]; intros H.
  apply Z.quot_div_nonneg; lia.
Qed.

Lemma int_neg_ceiling (q : Q) : (Qnum q < 0)%Z -> int q = Qceiling q.
Proof.
  destruct q as [n d]; unfold int, Qceiling; cbn [Qnum Qden Qfloor Qopp].
  intros H.
  replace n with (- - n)%Z at 1 by lia.
  rewrite Z.quot_opp_l by lia.
  rewrite Z.quot_div_nonneg by lia. reflexivity.
Qed.

Lemma Qnum_nonneg (q : Q) : (0 <= Qnum q)%Z <-> 0 <= q.
Proof. destruct q as [n d]; unfold Qle; cbn. lia. Qed.

Lemma int_monotone (x y : Q) : x <= y -> (int x <= int y)%Z.
Proof.
  intros Hxy.
  destruct (Z_lt_le_dec (Qnum x) 0) as [Hx|Hx];
    destruct (Z_lt_le_dec (Qnum y) 0) as [Hy|Hy].
  - rewrite !int_neg_ceiling by assumption. now apply Qceiling_resp_le.
  - rewrite int_neg_ceiling, int_nonneg_floor by assumption.
    assert (x <= 0) as Hx0.
    { destruct x as [n d]; unfold Qle; cbn in *. lia. }
    apply Qnum_nonneg in Hy.
    apply Qceiling_resp_le in Hx0. apply Qfloor_resp_le in Hy.
    change (Qceiling 0) with 0%Z in Hx0. change (Qfloor 0) with 0%Z in Hy.
    lia.
  - apply Qnum_nonneg in Hx.
    assert (y < 0) as Hy0.
    { destruct y as [n d]; unfold Qlt; cbn in *. lia. }
    lra.
  - rewrite !int_nonneg_floor by assumption. now apply Qfloor_resp_le.
Qed.

End Truncation.

(** X15.  The [predicted_demand] argument of
    [_calculate_smart_order_quantity] never influences the result: the
    branch that falls back on it needs an empty window of recent demand,
    which more than 7 logged decisions exclude. *)
Theorem order_quantity_ignores_predicted_demand
    (a : Agent) (base p1 p2 : Q) (label : string) :
  _calculate_smart_order_quantity a base p1 label
  = _calculate_smart_order_quantity a base p2 label.
Proof.
  destruct (le_lt_dec (length (decisions_log a)) 7) as [H|H].
  - now rewrite !smart_order_quantity_without_history.
  - now rewrite !smart_order_quantity_with_history.
Qed.

(** X16.  The trailing-demand heuristic only ever raises an order: the
    quantity computed is at least the base quantity capped at
    [max_order_size] and truncated, and never more than
    [max_order_size]. *)
Theorem heuristic_only_raises_order
    (a : Agent) (base predicted : Q) (label : string) :
  (int (Qmin base (inject_Z (max_order_size a)))
   <= _calculate_smart_order_quantity a base predicted label
   <= max_order_size a)%Z.
Proof.
  split; [|apply smart_order_quantity_le_max].
  unfold _calculate_smart_order_quantity.
  apply int_monotone, Q.min_le_compat_r.
  destruct (7 <? length (decisions_log a))%nat; [apply Q.le_max_l | lra].
Qed.

Section PlacedOrders.

Lemma step_new_orders (a : Agent) (e : Event) :
  0 <= base_reorder_quantity a -> (0 <= max_order_size a)%Z ->
  exists new,
    orders_placed (step a e) = orders_placed a ++ new /\
    Forall (fun o => (0 <= o_quantity o)%Z /\
                     o_cost o = (o_quantity o * 30)%Z) new.
Proof.
  intros Hq Hm.
  reorder_cases; unfold fulfilment; rewrite fulfil_orders_placed.
  - eexists; split; [reflexivity|].
    constructor; [|constructor]. cbn [o_quantity o_cost]. split; [|reflexivity].
    apply smart_order_quantity_nonneg.
    + rewrite fulfil_adaptation. now apply adapt_quantity_nonneg.
    + now rewrite fulfil_max_order_size.
  - exists []. split; [now rewrite app_nil_r | constructor].
Qed.

End PlacedOrders.

(** X17.  From a state with non-negative base reorder quantity and maximum
    order size, every order a run appends has a non-negative quantity and a
    cost of exactly 30 per unit. *)
Theorem appended_orders_nonneg_and_priced (a : Agent) (es : list Event) :
  0 <= base_reorder_quantity a ->
  (0 <= max_order_size a)%Z ->
  exists new,
    orders_placed (run a es) = orders_placed a ++ new /\
    Forall (fun o => (0 <= o_quantity o)%Z /\
                     o_cost o = (o_quantity o * 30)%Z) new.
Proof.
  revert a; induction es as [|e es IH]; intros a Hq Hm.
  - exists []. split; [now rewrite app_nil_r | constructor].
  - destruct (step_new_orders a e Hq Hm) as (new1 & Heq1 & Hall1).
    destruct (IH (step a e)) as (new2 & Heq2 & Hall2).
    + now rewrite step_base_reorder_quantity.
    + now rewrite step_max_order_size.
    + exists (new1 ++ new2). split.
      * rewrite run_cons, Heq2, Heq1. now rewrite app_assoc.
      * apply Forall_app; split; assumption.
Qed.

Lemma appended_orders_nonneg_and_priced_witness :
  exists new,
    orders_placed (run default_agent (normal_days 18))
    = orders_placed default_agent ++ new /\
    Forall (fun o => (0 <= o_quantity o)%Z /\
                     o_cost o = (o_quantity o * 30)%Z) new.
Proof.
  apply (appended_orders_nonneg_and_priced default_agent (normal_days 18));
    vm_compute; discriminate.
Defined.

(** ** Performance metrics *)

Section MetricsFacts.

Lemma py_div_nonzero (x y : Q) : ~ y == 0 -> py_div x y = Some (x / y).
Proof.
  intros H. unfold py_div.
  destruct (Qeq_bool y 0) eqn:E; [|reflexivity].
  apply Qeq_bool_eq in E. contradiction.
Qed.

Lemma inject_Z_of_nat_nonzero (n : nat) :
  n <> 0%nat -> ~ inject_Z (Z.of_nat n) == 0.
Proof. intros H. unfold Qeq; cbn. lia. Qed.

Lemma Qmax_1_nonzero (q : Q) : ~ Qmax 1 q == 0.
Proof. pose proof (Q.le_max_l 1 q) as Hge. intros H0. lra. Qed.

(** The metrics of an agent with a non-empty decision log, with the
    divisions carried out. *)
Lemma get_performance_metrics_value (a : Agent) :
  decisions_log a <> [] ->
  exists m,
    get_performance_metrics a = Some (Some m) /\
    pm_total_days_simulated m = length (decisions_log a) /\
    pm_stockout_rate_percent m
    = py_round (inject_Z (stockouts a)
                / inject_Z (Z.of_nat (length (decisions_log a))) * 100) 2 /\
    pm_service_level_percent m
    = py_round (inject_Z (Z.of_nat (length (decisions_log a)) - stockouts a)
                / inject_Z (Z.of_nat (length (decisions_log a))) * 100) 2 /\
    pm_total_costs m = total_costs a /\
    pm_total_units_ordered m = Zsum (map o_quantity (orders_placed a)) /\
    pm_scenario_breakdown m = scenario_counts (decisions_log a) /\
    pm_scenarios_encountered m = size (scenario_counts (decisions_log a)) /\
    pm_learning_entries m = size (scenario_memory a).
Proof.
  intros Hlog. unfold get_performance_metrics.
  assert (length (decisions_log a) <> 0%nat) as Hn.
  { intros H. apply length_zero_iff_nil in H. contradiction. }
  apply Nat.eqb_neq in Hn as Hb. rewrite Hb.
  rewrite !(py_div_nonzero _ _ (inject_Z_of_nat_nonzero _ Hn)).
  cbn [mbind option_bind].
  rewrite (py_div_nonzero _ _ (Qmax_1_nonzero (current_stock a))).
  destruct (Qgt_bool (total_revenue a) 0) eqn:Hrev.
  - apply Qgt_bool_true in Hrev.
    rewrite py_div_nonzero by lra.
    cbn [mbind option_bind]. eexists. split; [reflexivity|].
    cbn. repeat split.
  - cbn [mbind option_bind]. eexists. split; [reflexivity|].
    cbn. repeat split.
Qed.

Lemma get_performance_metrics_empty (a : Agent) :
  decisions_log a = [] -> get_performance_metrics a = Some None.
Proof. intros H. unfold get_performance_metrics. now rewrite H. Qed.

End MetricsFacts.

(** X18.  [get_performance_metrics] never raises [ZeroDivisionError],
    whatever the state of the agent - each of its divisions is guarded or
    has a divisor of at least 1 - and it returns the empty dictionary
    exactly when no decision is logged. *)
Theorem get_performance_metrics_never_raises (a : Agent) :
  get_performance_metrics a <> None /\
  (get_performance_metrics a = Some None <-> decisions_log a = []).
Proof.
  destruct (decisions_log a) as [|d log] eqn:Hlog.
  - rewrite (get_performance_metrics_empty a Hlog). split; [discriminate|].
    tauto.
  - destruct (get_performance_metrics_value a) as (m & Hm & _).
    { rewrite Hlog. discriminate. }
    rewrite Hm. split; [discriminate|]. split; discriminate.
Qed.

Section ScenarioCounts.

Lemma scenario_counts_snoc (log : list Decision) (d : Decision) :
  scenario_counts (log ++ [d]) = count_scenario (scenario_counts log) d.
Proof. unfold scenario_counts. now rewrite fold_left_app. Qed.

Lemma decisions_under_snoc (label : string) (log : list Decision)
    (d : Decision) :
  decisions_under label (log ++ [d])
  = (decisions_under label log
     + (if String.eqb (d_scenario d) label then 1 else 0))%nat.
Proof.
  unfold decisions_under. rewrite List.filter_app, length_app.
  cbn [List.filter]. now destruct (String.eqb (d_scenario d) label).
Qed.

Lemma scenario_counts_lookup (log : list Decision) (label : string) :
  scenario_counts log !! label
  = if (decisions_under label log =? 0)%nat then None
    else Some (Z.of_nat (decisions_under label log)).
Proof.
  induction log as [|d log IH] using rev_ind.
  - reflexivity.
  - rewrite scenario_counts_snoc, decisions_under_snoc. unfold count_scenario.
    destruct (String.eqb_spec (d_scenario d) label) as [->|Hne].
    + rewrite lookup_insert_eq, IH.
      replace (decisions_under label log + 1 =? 0)%nat with false
        by (symmetry; apply Nat.eqb_neq; lia).
      destruct (decisions_under label log =? 0)%nat eqn:E; cbn [from_option];
        unfold id; f_equal.
      * apply Nat.eqb_eq in E. rewrite E. reflexivity.
      * lia.
    + rewrite lookup_insert_ne by exact Hne. now rewrite Nat.add_0_r.
Qed.

Lemma count_by_label {A B} (f : A -> string) (g : B -> string)
    (label : string) (la : list A) (lb : list B) :
  map f la = map g lb ->
  length (List.filter (fun x => String.eqb (f x) label) la)
  = length (List.filter (fun y => String.eqb (g y) label) lb).
Proof.
  revert lb; induction la as [|x la IH]; intros [|y lb] H;
    try discriminate; [reflexivity|].
  injection H as Hxy Hrest. cbn [List.filter]. rewrite Hxy.
  destruct (String.eqb (g y) label); cbn [length]; now rewrite (IH lb).
Qed.

Lemma run_decisions_under
    (initial_stock point quantity : Q) (es : list Event) (label : string) :
  decisions_under label
    (decisions_log (run (IntelligentInventoryAgent initial_stock point
                           quantity) es))
  = length (submitted label es).
Proof.
  destruct (run_decisions_log
              (IntelligentInventoryAgent initial_stock point quantity) es)
    as (new & Hlog & Hs & _).
  rewrite Hlog. cbn [decisions_log IntelligentInventoryAgent app].
  now apply count_by_label.
Qed.

Lemma run_counts_agree_with_memory
    (initial_stock point quantity : Q) (es : list Event) (label : string) :
  scenario_counts
    (decisions_log (run (IntelligentInventoryAgent initial_stock point
                           quantity) es)) !! label
  = encounters <$>
      (scenario_memory (run (IntelligentInventoryAgent initial_stock point
                               quantity) es) !! label).
Proof.
  rewrite scenario_counts_lookup, run_decisions_under.
  pose proof (run_memory_exact
                (IntelligentInventoryAgent initial_stock point quantity) es
                eq_refl label) as H.
  destruct (scenario_memory _ !! label) as [m|]; cbn [fmap option_fmap
    option_map].
  - destruct H as (Hpos & Hn & _).
    replace (length (submitted label es) =? 0)%nat with false
      by (symmetry; apply Nat.eqb_neq; lia).
    now rewrite Hn.
  - now rewrite H.
Qed.

End ScenarioCounts.

(** X19.  In the metrics of an agent the scenario breakdown gives, for
    every label, the number of logged decisions under that label - a label
    without decisions has no key - and the days simulated are the length of
    the decision log. *)
Theorem scenario_breakdown_counts_decisions
    (a : Agent) (m : Metrics) (label : string) :
  get_performance_metrics a = Some (Some m) ->
  pm_total_days_simulated m = length (decisions_log a) /\
  pm_scenario_breakdown m !! label
  = if (decisions_under label (decisions_log a) =? 0)%nat then None
    else Some (Z.of_nat (decisions_under label (decisions_log a))).
Proof.
  intros Hm.
  destruct (get_performance_metrics_value a)
    as (m' & Hm' & Hdays & _ & _ & _ & _ & Hbreak & _).
  { intros Hlog. apply get_performance_metrics_empty in Hlog. congruence. }
  assert (m' = m) as -> by congruence.
  rewrite Hdays, Hbreak. split; [reflexivity|].
  apply scenario_counts_lookup.
Qed.

Lemma scenario_breakdown_counts_decisions_witness :
  exists m,
    get_performance_metrics (run default_agent interleaved) = Some (Some m) /\
    pm_total_days_simulated m
    = length (decisions_log (run default_agent interleaved)) /\
    pm_scenario_breakdown m !! "Normal_Operations"
    = if (decisions_under "Normal_Operations"
            (decisions_log (run default_agent interleaved)) =? 0)%nat
      then None
      else Some (Z.of_nat
                   (decisions_under "Normal_Operations"
                      (decisions_log (run default_agent interleaved)))).
Proof.
  eexists. split.
  - vm_compute. reflexivity.
  - apply (scenario_breakdown_counts_decisions
             (run default_agent interleaved)).
    vm_compute. reflexivity.
Defined.

(** X20.  For an agent built by the constructor and never reset, the
    metrics' scenario breakdown, counted from the decision log, agrees for
    every label with the [encounters] of the scenario memory, and
    [learning_entries] equals [scenarios_encountered]. *)
Theorem scenario_breakdown_agrees_with_memory
    (initial_stock point quantity : Q) (es : list Event) (m : Metrics) :
  get_performance_metrics
    (run (IntelligentInventoryAgent initial_stock point quantity) es)
  = Some (Some m) ->
  (forall label,
     pm_scenario_breakdown m !! label
     = encounters <$>
         (scenario_memory
            (run (IntelligentInventoryAgent initial_stock point quantity) es)
          !! label)) /\
  pm_learning_entries m = pm_scenarios_encountered m.
Proof.
  intros Hm.
  set (a := run (IntelligentInventoryAgent initial_stock point quantity) es)
    in *.
  destruct (get_performance_metrics_value a)
    as (m' & Hm' & _ & _ & _ & _ & _ & Hbreak & Hseen & Hlearnt).
  { intros Hlog. apply get_performance_metrics_empty in Hlog. congruence. }
  assert (m' = m) as -> by congruence.
  assert (forall label,
            scenario_counts (decisions_log a) !! label
            = encounters <$> (scenario_memory a !! label)) as Hagree.
  { intros label. apply run_counts_agree_with_memory. }
  rewrite Hbreak, Hseen, Hlearnt. split; [exact Hagree|].
  rewrite <- (size_dom (D := gset string) (scenario_memory a)).
  rewrite <- (size_dom (D := gset string) (scenario_counts (decisions_log a))).
  f_equal. apply set_eq. intros label.
  rewrite !elem_of_dom, Hagree. symmetry. apply fmap_is_Some.
Qed.

Lemma scenario_breakdown_agrees_with_memory_witness :
  exists m,
    get_performance_metrics (run (IntelligentInventoryAgent 2000 300 800)
                               interleaved) = Some (Some m) /\
    pm_learning_entries m = pm_scenarios_encountered m.
Proof.
  eexists. split.
  - vm_compute. reflexivity.
  - apply (scenario_breakdown_agrees_with_memory 2000 300 800 interleaved).
    vm_compute. reflexivity.
Defined.

(** ** Performance by scenario *)

Section ScenarioPerformance.

Lemma accumulated_perf_snoc (log : list Decision) (d : Decision) :
  accumulated_perf (log ++ [d]) = accumulate_perf (accumulated_perf log) d.
Proof. unfold accumulated_perf. now rewrite fold_left_app. Qed.

Lemma under_snoc (label : string) (log : list Decision) (d : Decision) :
  under label (log ++ [d])
  = under label log ++ (if String.eqb (d_scenario d) label then [d] else []).
Proof. unfold under. now rewrite List.filter_app. Qed.

Lemma accumulated_perf_lookup (log : list Decision) (label : string) :
  accumulated_perf log !! label
  = match under label log with
    | [] => None
    | _ => Some (perf_of label log)
    end.
Proof.
  induction log as [|d log IH] using rev_ind; [reflexivity|].
  rewrite accumulated_perf_snoc. unfold accumulate_perf.
  destruct (String.eqb_spec (d_scenario d) label) as [Heq|Hne].
  - rewrite Heq, lookup_insert_eq, IH.
    assert (under label (log ++ [d]) = under label log ++ [d]) as Hu.
    { rewrite under_snoc, <- Heq, String.eqb_refl. reflexivity. }
    unfold perf_of. rewrite Hu.
    destruct (under label log ++ [d]) as [|x xs] eqn:E;
      [now apply app_eq_nil in E as [_ [=]]|rewrite <- E; clear E].
    f_equal.
    rewrite !List.filter_app, !map_app, !fold_left_app, !length_app.
    cbn [map fold_left List.filter length].
    unfold is_stockout, is_reorder.
    destruct (under label log) as [|y ys]; cbn [from_option]; unfold id;
      cbn [fresh_perf sp_encounters sp_stockouts sp_orders_placed
             sp_total_demand sp_total_fulfilled sp_urgency_levels sp_derived
             length map fold_left List.filter app];
      destruct (d_action d); cbn [length app]; f_equal; lia.
  - rewrite lookup_insert_ne by exact Hne. rewrite IH.
    unfold perf_of. rewrite under_snoc.
    apply String.eqb_neq in Hne. rewrite Hne, app_nil_r. reflexivity.
Qed.

End ScenarioPerformance.

Section DerivedMetrics.

Lemma py_div_value (x y r : Q) : py_div x y = Some r -> r = x / y.
Proof. unfold py_div. destruct (Qeq_bool y 0); congruence. Qed.

Lemma fold_left_keeps_member {A} (f : A -> A -> A) (xs : list A) (x : A) :
  (forall b y, f b y = b \/ f b y = y) ->
  In (fold_left f xs x) (x :: xs).
Proof.
  intros Hf. revert x; induction xs as [|y xs IH]; intros x; [now left|].
  cbn [fold_left]. destruct (IH (f x y)) as [H|H].
  - rewrite <- H. destruct (Hf x y) as [->| ->]; [now left | right; now left].
  - right. now right.
Qed.

Lemma py_max_by_key_in {A} (key : A -> nat) (xs : list A) (x : A) :
  py_max_by_key key xs = Some x -> In x xs.
Proof.
  destruct xs as [|y ys]; [discriminate|]. cbn [py_max_by_key]. intros [= <-].
  apply fold_left_keeps_member. intros b z.
  destruct (key b <? key z)%nat; auto.
Qed.

Lemma py_max_by_key_nonempty {A} (key : A -> nat) (xs : list A) :
  xs <> [] -> is_Some (py_max_by_key key xs).
Proof. destruct xs; [congruence | cbn; eauto]. Qed.

(** What [derive_perf] returns when it returns. *)
Lemma derive_perf_result
    (set_order : list string -> list string) (p p' : ScenarioPerf) :
  derive_perf set_order p = Some p' ->
  (0 < sp_encounters p)%Z ->
  sp_encounters p' = sp_encounters p /\
  sp_stockouts p' = sp_stockouts p /\
  sp_orders_placed p' = sp_orders_placed p /\
  sp_urgency_levels p' = sp_urgency_levels p /\
  exists der,
    sp_derived p' = Some der /\
    sp_stockout_rate der
    = inject_Z (sp_stockouts p) / inject_Z (sp_encounters p) * 100 /\
    sp_avg_demand der = sp_total_demand p / inject_Z (sp_encounters p) /\
    sp_fulfillment_rate der
    = sp_total_fulfilled p / Qmax 1 (sp_total_demand p) * 100 /\
    In (sp_most_common_urgency der) (set_order (sp_urgency_levels p)).
Proof.
  intros H Hpos. unfold derive_perf in H.
  apply Z.ltb_lt in Hpos. rewrite Hpos in H.
  destruct (py_div (inject_Z (sp_stockouts p)) (inject_Z (sp_encounters p)))
    as [r1|] eqn:E1; [|discriminate].
  destruct (py_div (sp_total_demand p) (inject_Z (sp_encounters p)))
    as [r2|] eqn:E2; [|discriminate].
  destruct (py_div (sp_total_fulfilled p) (Qmax 1 (sp_total_demand p)))
    as [r3|] eqn:E3; [|discriminate].
  destruct (py_max_by_key (py_count (sp_urgency_levels p))
              (set_order (sp_urgency_levels p))) as [u|] eqn:E4;
    [|discriminate].
  cbn [mbind option_bind] in H. injection H as <-.
  apply py_div_value in E1, E2, E3. apply py_max_by_key_in in E4.
  cbn [sp_encounters sp_stockouts sp_orders_placed sp_urgency_levels
         sp_derived].
  repeat split. eexists. split; [reflexivity|].
  cbn [sp_stockout_rate sp_avg_demand sp_fulfillment_rate
         sp_most_common_urgency].
  subst. repeat split. exact E4.
Qed.

Lemma derive_perf_succeeds
    (set_order : list string -> list string) (p : ScenarioPerf) :
  iterates_elements set_order ->
  (0 < sp_encounters p)%Z ->
  sp_urgency_levels p <> [] ->
  is_Some (derive_perf set_order p).
Proof.
  intros Hso Hpos Hlv. unfold derive_perf.
  apply Z.ltb_lt in Hpos as Hb. rewrite Hb.
  assert (~ inject_Z (sp_encounters p) == 0) as Hnz
    by (unfold Qeq; cbn; lia).
  rewrite !(py_div_nonzero _ _ Hnz).
  rewrite (py_div_nonzero _ _ (Qmax_1_nonzero _)).
  cbn [mbind option_bind].
  destruct (py_max_by_key_nonempty (py_count (sp_urgency_levels p))
              (set_order (sp_urgency_levels p))) as [u Hu].
  - destruct (sp_urgency_levels p) as [|x l] eqn:E; [congruence|].
    intros Hnil. assert (In x (set_order (x :: l))) as Hin
      by (apply Hso; now left).
    rewrite Hnil in Hin. destruct Hin.
  - rewrite Hu. cbn. eauto.
Qed.

Lemma perf_of_positive (label : string) (log : list Decision) :
  under label log <> [] ->
  (0 < sp_encounters (perf_of label log))%Z /\
  sp_urgency_levels (perf_of label log) <> [].
Proof.
  intros H. unfold perf_of. cbn [sp_encounters sp_urgency_levels].
  destruct (under label log); [congruence|]. cbn. split; [lia|discriminate].
Qed.

(** An entry of the result is the derived form of the entry the first loop
    built for a label with at least one decision. *)
Lemma get_scenario_performance_lookup
    (set_order : list string -> list string) (a : Agent)
    (res : gmap string ScenarioPerf) (label : string) (perf : ScenarioPerf) :
  get_scenario_performance set_order a = Some res ->
  res !! label = Some perf ->
  under label (decisions_log a) <> [] /\
  derive_perf set_order (perf_of label (decisions_log a)) = Some perf.
Proof.
  unfold get_scenario_performance. intros Hres Hl.
  destruct (decide _) as [_|_]; [|discriminate].
  injection Hres as <-.
  rewrite lookup_omap, lookup_fmap, accumulated_perf_lookup in Hl.
  destruct (under label (decisions_log a)) as [|d ds] eqn:E;
    [discriminate|].
  cbn [fmap option_fmap option_map mbind option_bind] in Hl.
  split; [discriminate|].
  destruct (derive_perf set_order (perf_of label (decisions_log a)));
    [exact Hl | discriminate].
Qed.

Lemma get_scenario_performance_value
    (set_order : list string -> list string) (a : Agent) :
  iterates_elements set_order ->
  get_scenario_performance set_order a
  = Some (omap id (derive_perf set_order
                     <$> accumulated_perf (decisions_log a))).
Proof.
  intros Hso. unfold get_scenario_performance.
  destruct (decide _) as [_|Hno]; [reflexivity|].
  exfalso. apply Hno. apply map_Forall_lookup. intros label r.
  rewrite lookup_fmap, accumulated_perf_lookup.
  destruct (under label (decisions_log a)) as [|d ds] eqn:E; [discriminate|].
  cbn [fmap option_fmap option_map]. intros [= <-].
  destruct (perf_of_positive label (decisions_log a)) as [Hpos Hlv].
  { rewrite E. discriminate. }
  now apply derive_perf_succeeds.
Qed.

Lemma remove_dups_iterates_elements :
  iterates_elements (remove_dups (A := string)).
Proof.
  intros l x. rewrite <- !list_elem_of_In. apply elem_of_remove_dups.
Qed.

Lemma exclusive_filters {A} (p q : A -> bool) (l : list A) :
  (forall x, p x = true -> q x = false) ->
  (length (List.filter p l) + length (List.filter q l) <= length l)%nat.
Proof.
  intros Hpq. induction l as [|x l IH]; cbn [List.filter length]; [lia|].
  destruct (p x) eqn:Hp; [rewrite (Hpq x Hp)|destruct (q x)];
    cbn [length]; lia.
Qed.

End DerivedMetrics.

(** X22.  [get_scenario_performance] never raises, whatever the state of
    the agent and whatever the order in which Python iterates a set: every
    entry it derives has at least one encounter and one urgency level, and
    its divisors are an encounter count or at least 1. *)
Theorem get_scenario_performance_never_raises
    (set_order : list string -> list string) (a : Agent) :
  iterates_elements set_order ->
  is_Some (get_scenario_performance set_order a).
Proof.
  intros Hso. rewrite (get_scenario_performance_value _ _ Hso). eauto.
Qed.

Lemma get_scenario_performance_never_raises_witness :
  is_Some (get_scenario_performance remove_dups
             (run default_agent interleaved)).
Proof.
  apply (get_scenario_performance_never_raises remove_dups
           (run default_agent interleaved)).
  apply remove_dups_iterates_elements.
Defined.

(** X23.  In the result of [get_scenario_performance] the entry of a label
    counts the logged decisions under that label, those among them whose
    action is [stockout] and those whose action is [intelligent_reorder];
    the two together never exceed the encounters, a stockout period that
    reordered counting as an order only; and the derived keys are always
    present. *)
Theorem scenario_performance_counts
    (set_order : list string -> list string) (a : Agent)
    (res : gmap string ScenarioPerf) (label : string) (perf : ScenarioPerf) :
  get_scenario_performance set_order a = Some res ->
  res !! label = Some perf ->
  sp_encounters perf = Z.of_nat (decisions_under label (decisions_log a)) /\
  sp_stockouts perf
  = Z.of_nat (length (List.filter is_stockout
                        (under label (decisions_log a)))) /\
  sp_orders_placed perf
  = Z.of_nat (length (List.filter is_reorder
                        (under label (decisions_log a)))) /\
  (0 < sp_encounters perf)%Z /\
  (sp_stockouts perf + sp_orders_placed perf <= sp_encounters perf)%Z /\
  is_Some (sp_derived perf).
Proof.
  intros Hres Hl.
  destruct (get_scenario_performance_lookup _ _ _ _ _ Hres Hl) as [Hne Hd].
  destruct (perf_of_positive label (decisions_log a) Hne) as [Hpos _].
  destruct (derive_perf_result _ _ _ Hd Hpos)
    as (He & Hs & Ho & _ & der & Hder & _).
  rewrite He, Hs, Ho, Hder. unfold perf_of in *.
  cbn [sp_encounters sp_stockouts sp_orders_placed] in *.
  pose proof (exclusive_filters is_stockout is_reorder
                (under label (decisions_log a))) as Hex.
  unfold decisions_under. fold (under label (decisions_log a)).
  repeat split; try lia; [|eauto].
  enough (length (List.filter is_stockout (under label (decisions_log a)))
          + length (List.filter is_reorder (under label (decisions_log a)))
          <= length (under label (decisions_log a)))%nat by lia.
  apply Hex. intros x. unfold is_stockout, is_reorder.
  now destruct (d_action x).
Qed.

Lemma scenario_performance_counts_witness :
  exists res perf,
    get_scenario_performance remove_dups
      (run (IntelligentInventoryAgent 300 300 800)
         [viral_spike]) = Some res /\
    res !! "Viral_Spike_Test" = Some perf /\
    sp_encounters perf
    = Z.of_nat (decisions_under "Viral_Spike_Test"
                  (decisions_log
                     (run (IntelligentInventoryAgent 300 300 800)
                        [viral_spike]))) /\
    sp_stockouts perf
    = Z.of_nat (length (List.filter is_stockout
                          (under "Viral_Spike_Test"
                             (decisions_log
                                (run (IntelligentInventoryAgent 300 300 800)
                                   [viral_spike]))))) /\
    sp_orders_placed perf
    = Z.of_nat (length (List.filter is_reorder
                          (under "Viral_Spike_Test"
                             (decisions_log
                                (run (IntelligentInventoryAgent 300 300 800)
                                   [viral_spike]))))) /\
    (0 < sp_encounters perf)%Z /\
    (sp_stockouts perf + sp_orders_placed perf <= sp_encounters perf)%Z /\
    is_Some (sp_derived perf).
Proof.
  pose proof (get_scenario_performance_value remove_dups
                (run (IntelligentInventoryAgent 300 300 800) [viral_spike])
                remove_dups_iterates_elements) as Hget.
  assert (omap id (derive_perf remove_dups
                     <$> accumulated_perf
                           (decisions_log
                              (run (IntelligentInventoryAgent 300 300 800)
                                 [viral_spike])))
          !! "Viral_Spike_Test"
          = derive_perf remove_dups
              (perf_of "Viral_Spike_Test"
                 (decisions_log
                    (run (IntelligentInventoryAgent 300 300 800)
                       [viral_spike])))) as Hl.
  { rewrite lookup_omap, lookup_fmap, accumulated_perf_lookup.
    vm_compute. reflexivity. }
  assert (exists perf,
            derive_perf remove_dups
              (perf_of "Viral_Spike_Test"
                 (decisions_log
                    (run (IntelligentInventoryAgent 300 300 800)
                       [viral_spike]))) = Some perf) as [perf Hp].
  { eexists. vm_compute. reflexivity. }
  rewrite Hp in Hl.
  eexists. exists perf. split; [exact Hget|]. split; [exact Hl|].
  exact (scenario_performance_counts _ _ _ _ _ Hget Hl).
Defined.

Section RatesAndTiers.

Lemma fold_left_Qplus (l : list Q) (acc : Q) :
  fold_left Qplus l acc == acc + Qsum l.
Proof.
  revert acc; induction l as [|x l IH]; intros acc; cbn [fold_left].
  - unfold Qsum; cbn. ring.
  - rewrite IH. unfold Qsum; cbn [fold_right]. ring.
Qed.

Lemma Qsum_fulfilled_within_demand (ds : list Decision) :
  Forall fulfilled_within_demand ds ->
  0 <= Qsum (map d_demand_fulfilled ds) <= Qsum (map d_actual_demand ds).
Proof.
  induction 1 as [|d ds [Hlo Hhi] _ IH]; unfold Qsum in *; cbn [map fold_right].
  - lra.
  - lra.
Qed.

Lemma Forall_under (P : Decision -> Prop) (label : string)
    (log : list Decision) :
  Forall P log -> Forall P (under label log).
Proof.
  rewrite !List.Forall_forall. intros H d Hd.
  apply List.filter_In in Hd as [Hd _]. now apply H.
Qed.

Lemma under_scenario (label : string) (log : list Decision) (d : Decision) :
  In d (under label log) -> d_scenario d = label.
Proof.
  intros Hd. apply List.filter_In in Hd as [_ Hd]. now apply String.eqb_eq.
Qed.

Lemma ratio_percent_bounds (x y : Q) :
  0 <= x -> x <= y -> 0 < y -> 0 <= x / y * 100 <= 100.
Proof.
  intros Hx Hxy Hy.
  assert (0 <= x / y) as Hlo by (apply Qle_shift_div_l; lra).
  assert (x / y <= 1) as Hhi by (apply Qle_shift_div_r; lra).
  lra.
Qed.

Lemma step_fulfilled_within_demand (a : Agent) (e : Event) :
  (0 <= current_stock a /\ 0 <= base_reorder_quantity a /\
   (0 <= max_order_size a)%Z) /\
  Forall fulfilled_within_demand (decisions_log a) ->
  (0 <= current_stock (step a e) /\ 0 <= base_reorder_quantity (step a e) /\
   (0 <= max_order_size (step a e))%Z) /\
  Forall fulfilled_within_demand (decisions_log (step a e)).
Proof.
  intros [(Hs & Hq & Hm) Hlog]. split.
  - rewrite step_base_reorder_quantity, step_max_order_size.
    repeat split; try assumption. now apply step_current_stock_nonneg.
  - rewrite step_decisions_log. apply Forall_app. split; [exact Hlog|].
    constructor; [|constructor]. unfold fulfilled_within_demand.
    destruct (submit_keeps_tentative a e) as (_ & _ & _ & _ & -> & ->).
    now apply tentative_fulfilled_bounds.
Qed.

Lemma step_tier_of_policy (a0 a : Agent) (e : Event) :
  (forall label, adapt a label = adapt a0 label) /\
  Forall (tier_of_policy a0) (decisions_log a) ->
  (forall label, adapt (step a e) label = adapt a0 label) /\
  Forall (tier_of_policy a0) (decisions_log (step a e)).
Proof.
  intros [Hpol Hlog]. split.
  - intros label. rewrite <- Hpol.
    apply (apply_call_adapt a (call_event e)).
  - rewrite step_decisions_log. apply Forall_app. split; [exact Hlog|].
    constructor; [|constructor]. unfold tier_of_policy.
    destruct (submit_keeps_tentative a e) as (_ & -> & -> & _).
    now rewrite Hpol.
Qed.

End RatesAndTiers.

(** X24.  For an agent built by the constructor with non-negative stock and
    reorder quantity, after any run both rates that
    [get_scenario_performance] derives for a scenario - the stockout rate
    and the fulfillment rate - lie between 0 and 100. *)
Theorem scenario_rates_within_bounds
    (set_order : list string -> list string)
    (initial_stock point quantity : Q) (es : list Event)
    (res : gmap string ScenarioPerf) (label : string)
    (perf : ScenarioPerf) (der : Derived) :
  0 <= initial_stock ->
  0 <= quantity ->
  get_scenario_performance set_order
    (run (IntelligentInventoryAgent initial_stock point quantity) es)
  = Some res ->
  res !! label = Some perf ->
  sp_derived perf = Some der ->
  0 <= sp_stockout_rate der <= 100 /\
  0 <= sp_fulfillment_rate der <= 100.
Proof.
  intros Hstock Hqty Hres Hl Hder.
  set (a := run (IntelligentInventoryAgent initial_stock point quantity) es)
    in *.
  assert (Forall fulfilled_within_demand (decisions_log a)) as Hlog.
  { apply (run_invariant
             (fun a =>
                (0 <= current_stock a /\ 0 <= base_reorder_quantity a /\
                 (0 <= max_order_size a)%Z) /\
                Forall fulfilled_within_demand (decisions_log a))
             step_fulfilled_within_demand es).
    cbn. repeat split; try assumption; try lia. constructor. }
  destruct (get_scenario_performance_lookup _ _ _ _ _ Hres Hl) as [Hne Hd].
  destruct (perf_of_positive label (decisions_log a) Hne) as [Hpos _].
  destruct (derive_perf_result _ _ _ Hd Hpos)
    as (_ & _ & _ & _ & der' & Hder' & Hrate & _ & Hfill & _).
  assert (der' = der) as -> by congruence.
  rewrite Hrate, Hfill. unfold perf_of in *.
  cbn [sp_encounters sp_stockouts sp_total_demand sp_total_fulfilled] in *.
  split.
  - apply ratio_percent_bounds.
    + apply inject_Z_nonneg. lia.
    + rewrite <- Zle_Qle. apply inj_le, List.filter_length_le.
    + change 0 with (inject_Z 0). rewrite <- Zlt_Qlt. exact Hpos.
  - pose proof (Qsum_fulfilled_within_demand _
                  (Forall_under _ label _ Hlog)) as [Hlo Hhi].
    rewrite !fold_left_Qplus.
    set (tf := Qsum (map d_demand_fulfilled (under label (decisions_log a))))
      in *.
    set (td := Qsum (map d_actual_demand (under label (decisions_log a))))
      in *.
    pose proof (Q.le_max_l 1 (0 + td)). pose proof (Q.le_max_r 1 (0 + td)).
    apply ratio_percent_bounds; lra.
Qed.

Lemma viral_spike_performance :
  exists res perf der,
    get_scenario_performance remove_dups
      (run (IntelligentInventoryAgent 300 300 800) [viral_spike]) = Some res /\
    res !! "Viral_Spike_Test" = Some perf /\
    sp_derived perf = Some der.
Proof.
  pose proof (get_scenario_performance_value remove_dups
                (run (IntelligentInventoryAgent 300 300 800) [viral_spike])
                remove_dups_iterates_elements) as Hget.
  assert (exists perf der,
            derive_perf remove_dups
              (perf_of "Viral_Spike_Test"
                 (decisions_log
                    (run (IntelligentInventoryAgent 300 300 800)
                       [viral_spike]))) = Some perf /\
            sp_derived perf = Some der) as (perf & der & Hp & Hder).
  { eexists. eexists. split; vm_compute; reflexivity. }
  eexists. exists perf, der. split; [exact Hget|]. split; [|exact Hder].
  rewrite lookup_omap, lookup_fmap, accumulated_perf_lookup, <- Hp.
  vm_compute. reflexivity.
Qed.

Lemma scenario_rates_within_bounds_witness :
  exists res perf der,
    get_scenario_performance remove_dups
      (run (IntelligentInventoryAgent 300 300 800) [viral_spike]) = Some res /\
    res !! "Viral_Spike_Test" = Some perf /\
    sp_derived perf = Some der /\
    0 <= sp_stockout_rate der <= 100 /\ 0 <= sp_fulfillment_rate der <= 100.
Proof.
  destruct viral_spike_performance as (res & perf & der & Hget & Hl & Hder).
  exists res, perf, der. repeat (split; [assumption|]).
  apply (scenario_rates_within_bounds remove_dups 300 300 800 [viral_spike]
           res "Viral_Spike_Test" perf der);
    try assumption; vm_compute; discriminate.
Defined.

(** X25.  For an agent built by the constructor, after any run the
    [most_common_urgency] that [get_scenario_performance] reports for a
    scenario is the urgency tier the policy gives that label, whatever the
    order in which Python iterates a set. *)
Theorem most_common_urgency_is_policy_tier
    (set_order : list string -> list string)
    (initial_stock point quantity : Q) (es : list Event)
    (res : gmap string ScenarioPerf) (label : string)
    (perf : ScenarioPerf) (der : Derived) :
  iterates_elements set_order ->
  get_scenario_performance set_order
    (run (IntelligentInventoryAgent initial_stock point quantity) es)
  = Some res ->
  res !! label = Some perf ->
  sp_derived perf = Some der ->
  sp_most_common_urgency der
  = urgency_level
      (adapt (IntelligentInventoryAgent initial_stock point quantity) label).
Proof.
  intros Hso Hres Hl Hder.
  set (a0 := IntelligentInventoryAgent initial_stock point quantity) in *.
  set (a := run a0 es) in *.
  assert (Forall (tier_of_policy a0) (decisions_log a)) as Hlog.
  { apply (run_invariant
             (fun a =>
                (forall label, adapt a label = adapt a0 label) /\
                Forall (tier_of_policy a0) (decisions_log a))
             (step_tier_of_policy a0) es).
    split; [reflexivity | constructor]. }
  destruct (get_scenario_performance_lookup _ _ _ _ _ Hres Hl) as [Hne Hd].
  destruct (perf_of_positive label (decisions_log a) Hne) as [Hpos _].
  destruct (derive_perf_result _ _ _ Hd Hpos)
    as (_ & _ & _ & _ & der' & Hder' & _ & _ & _ & Hin).
  assert (der' = der) as -> by congruence.
  apply (proj1 (Hso _ _)) in Hin. unfold perf_of in Hin. cbn [sp_urgency_levels] in Hin.
  apply in_map_iff in Hin as (d & <- & Hd').
  pose proof (Forall_under _ label _ Hlog) as Hu.
  rewrite List.Forall_forall in Hu. rewrite (Hu d Hd').
  now rewrite (under_scenario _ _ _ Hd').
Qed.

Lemma most_common_urgency_is_policy_tier_witness :
  exists res perf der,
    get_scenario_performance remove_dups
      (run (IntelligentInventoryAgent 300 300 800) [viral_spike]) = Some res /\
    res !! "Viral_Spike_Test" = Some perf /\
    sp_derived perf = Some der /\
    sp_most_common_urgency der
    = urgency_level
        (adapt (IntelligentInventoryAgent 300 300 800) "Viral_Spike_Test").
Proof.
  destruct viral_spike_performance as (res & perf & der & Hget & Hl & Hder).
  exists res, perf, der. repeat (split; [assumption|]).
  apply (most_common_urgency_is_policy_tier remove_dups 300 300 800
           [viral_spike] res "Viral_Spike_Test" perf der);
    try assumption.
  apply remove_dups_iterates_elements.
Defined.

(** ** The agent service *)

Section ServiceSteps.

Variables (svc : Service) (r : Request).

Lemma serve_rejected :
  event_of r = None ->
  process_daily_data svc (fst r) (snd r) = (svc, reply_error).
Proof.
  unfold event_of, process_daily_data.
  destruct (extract_daily_data (fst r)) as [[[[dt sl] [sc|]] pd]|];
    [discriminate | reflexivity | reflexivity].
Qed.

Lemma serve_accepted (e : Event) :
  event_of r = Some e ->
  exists sales,
    extract_daily_data (fst r)
    = Some (ev_date e, sales, scenario_label (ev_scenario e),
            ev_predicted_demand e) /\
    serve svc r
    = {| svc_agent := step (svc_agent svc) e;
         svc_current_day := (svc_current_day svc + 1)%Z;
         svc_total_decisions := (svc_total_decisions svc + 1)%Z;
         svc_daily_data_log :=
           svc_daily_data_log svc
             ++ [{| dl_day := (svc_current_day svc + 1)%Z;
                    dl_date := ev_date e;
                    dl_sales := sales;
                    dl_scenario := ev_scenario e;
                    dl_predicted_demand := ev_predicted_demand e |}];
         svc_decision_log :=
           svc_decision_log svc
             ++ [((svc_current_day svc + 1)%Z, snd (submit (svc_agent svc) e))];
         svc_performance_metrics :=
           _update_performance_metrics (svc_performance_metrics svc)
             (svc_current_day svc + 1) (snd (submit (svc_agent svc) e))
             sales |}.
Proof.
  unfold event_of, serve, process_daily_data.
  destruct (extract_daily_data (fst r)) as [[[[dt sl] [sc|]] pd]|];
    [|discriminate|discriminate].
  cbn [mbind option_bind]. intros [= <-].
  cbn [ev_date ev_scenario ev_predicted_demand].
  exists sl. split; [reflexivity|].
  unfold step, submit.
  cbn [ev_date ev_scenario ev_predicted_demand ev_noise].
  destruct (make_intelligent_decision (svc_agent svc) pd dt sc (snd r))
    as [agent decision].
  reflexivity.
Qed.

Lemma process_accepted (e : Event) :
  event_of r = Some e ->
  process_daily_data svc (fst r) (snd r)
  = (serve svc r,
     reply_success (_create_response (serve svc r)
                      (snd (submit (svc_agent svc) e)))).
Proof.
  unfold event_of, serve, process_daily_data.
  destruct (extract_daily_data (fst r)) as [[[[dt sl] [sc|]] pd]|];
    [|discriminate|discriminate].
  cbn [mbind option_bind]. intros [= <-].
  unfold submit. cbn [ev_date ev_scenario ev_predicted_demand ev_noise].
  destruct (make_intelligent_decision (svc_agent svc) pd dt sc (snd r))
    as [agent decision].
  reflexivity.
Qed.

End ServiceSteps.

Section ServiceRuns.

Lemma serve_unchanged (svc : Service) (r : Request) :
  event_of r = None -> serve svc r = svc.
Proof. intros H. unfold serve. now rewrite serve_rejected. Qed.

Lemma serve_all_snoc (svc : Service) (rs : list Request) (r : Request) :
  serve_all svc (rs ++ [r]) = serve (serve_all svc rs) r.
Proof. unfold serve_all. now rewrite fold_left_app. Qed.

Lemma events_served_snoc (rs : list Request) (r : Request) :
  events_served (rs ++ [r])
  = events_served rs ++ match event_of r with Some e => [e] | None => [] end.
Proof.
  unfold events_served. rewrite omap_app. cbn [omap list_omap].
  now destruct (event_of r).
Qed.

(** A property of the service that every accepted request keeps holds
    after any sequence of requests. *)
Lemma serve_all_invariant (P : Service -> Prop) :
  (forall svc r e, event_of r = Some e -> P svc -> P (serve svc r)) ->
  forall rs svc, P svc -> P (serve_all svc rs).
Proof.
  intros Hstep rs. induction rs as [|r rs IH] using rev_ind; intros svc H;
    [exact H|].
  rewrite serve_all_snoc.
  destruct (event_of r) as [e|] eqn:E.
  - eapply Hstep; [exact E | now apply IH].
  - rewrite (serve_unchanged _ _ E). now apply IH.
Qed.

Lemma step_costs_by_action (a : Agent) (e : Event) :
  total_costs (step a e)
  = (total_costs a
     + if is_reorder (snd (submit a e))
       then d_order_quantity (snd (submit a e)) * 30 else 0)%Z /\
  length (orders_placed (step a e))
  = (length (orders_placed a)
     + if is_reorder (snd (submit a e)) then 1 else 0)%nat.
Proof.
  destruct (fulfilment_frame a e) as (_ & Hcost & _).
  unfold is_reorder.
  reorder_cases; unfold fulfilment in *; rewrite fulfil_orders_placed;
    decision_simpl.
  - rewrite Hcost, length_app. cbn [length]. split; reflexivity.
  - assert (d_action (tentative (fulfil_period a (ev_predicted_demand e)
                                   (ev_date e) (ev_scenario e) (ev_noise e)))
            <> intelligent_reorder) as H
      by (fulfil_cases; discriminate).
    rewrite Hcost.
    destruct (d_action _); try congruence; split; lia.
Qed.

Lemma update_performance_metrics_counts
    (pm : ServiceMetrics) (day : Z) (d : Decision) (sales : Q) :
  sm_total_costs (_update_performance_metrics pm day d sales)
  = (sm_total_costs pm
     + if is_reorder d then d_order_quantity d * 30 else 0)%Z /\
  sm_orders_placed (_update_performance_metrics pm day d sales)
  = (sm_orders_placed pm + if is_reorder d then 1 else 0)%Z /\
  sm_stockouts (_update_performance_metrics pm day d sales)
  = (sm_stockouts pm + if is_stockout d then 1 else 0)%Z /\
  sm_service_level (_update_performance_metrics pm day d sales)
  = if (0 <? day)%Z
    then inject_Z (day - (sm_stockouts pm + if is_stockout d then 1 else 0))
         / inject_Z day * 100
    else sm_service_level pm.
Proof.
  unfold _update_performance_metrics, is_reorder, is_stockout.
  destruct (d_action d); cbn; repeat split; try lia;
    now rewrite ?Z.add_0_r.
Qed.

End ServiceRuns.

(** X26.  A request is answered with the error dictionary exactly when its
    sales or predicted demand cannot be converted to a number, its date is
    missing or unparseable, or its scenario is present but not a string (the
    agent then raises [TypeError] and the [except] branch answers); the
    service, its agent included, is then left unchanged.  A missing or
    negative predicted demand and a missing scenario are not reasons to
    reject.  Every other request is answered with a response that carries
    the new day number and the stock the agent holds after the call, and
    that has a reorder message exactly when its action is
    [intelligent_reorder]. *)
Theorem request_outcome (svc : Service) (dd : DailyData) (noise : Q) :
  (snd (process_daily_data svc dd noise) = reply_error <->
   dd_sales dd = unparseable \/ dd_predicted_demand dd = unparseable \/
   dd_date dd = absent \/ dd_date dd = unparseable \/
   dd_scenario dd = Some scenario_not_a_string) /\
  (snd (process_daily_data svc dd noise) = reply_error ->
   fst (process_daily_data svc dd noise) = svc) /\
  (forall r,
     snd (process_daily_data svc dd noise) = reply_success r ->
     rs_day r = (svc_current_day svc + 1)%Z /\
     rs_current_stock r
     = current_stock (svc_agent (fst (process_daily_data svc dd noise))) /\
     (rs_reorder_message r = None <-> rs_action r <> intelligent_reorder)).
Proof.
  split; [|split].
  - unfold process_daily_data, extract_daily_data.
    destruct (dd_sales dd) as [| |sl], (dd_predicted_demand dd) as [| |pd],
      (dd_date dd) as [| |dt], (dd_scenario dd) as [[sc|]|];
      cbn [mbind option_bind fst snd default from_option id];
      try (split;
           [intros _; repeat ((left; reflexivity) || right); reflexivity
           | reflexivity]);
      destruct (make_intelligent_decision _ _ _ _ _) as [ag d];
      cbn [fst snd];
      (split; [discriminate | intros [H|[H|[H|[H|H]]]]; discriminate]).
  - unfold process_daily_data.
    destruct (extract_daily_data dd) as [[[[dt sl] [sc|]] pd]|];
      [|reflexivity|reflexivity].
    destruct (make_intelligent_decision _ _ _ _ _) as [ag d]. discriminate.
  - intros r.
    destruct (event_of (dd, noise)) as [e|] eqn:E.
    + rewrite (process_accepted svc (dd, noise) e E : 
                 process_daily_data svc dd noise = _).
      cbn [fst snd]. intros [= <-].
      destruct (serve_accepted svc (dd, noise) e E) as (sales & _ & ->).
      cbn [_create_response rs_day rs_current_stock rs_reorder_message
             rs_action svc_current_day svc_agent].
      split; [reflexivity|]. split; [apply submit_stock_after|].
      destruct (d_action (snd (submit (svc_agent svc) e)));
        split; congruence.
    + rewrite (serve_rejected svc (dd, noise) E :
                 process_daily_data svc dd noise = _).
      discriminate.
Qed.

Lemma request_outcome_witness :
  snd (process_daily_data ProductionAgentService (fst null_scenario_request) 0)
  = reply_error /\
  fst (process_daily_data ProductionAgentService (fst null_scenario_request) 0)
  = ProductionAgentService.
Proof.
  assert (snd (process_daily_data ProductionAgentService
                 (fst null_scenario_request) 0) = reply_error) as H.
  { apply (proj1 (request_outcome ProductionAgentService
                    (fst null_scenario_request) 0)).
    right. right. right. right. reflexivity. }
  split; [exact H|].
  apply (proj1 (proj2 (request_outcome ProductionAgentService
                         (fst null_scenario_request) 0))). exact H.
Defined.

(** X27.  Starting from a fresh service, after any sequence of requests the
    agent is the constructor's agent run on the events of the accepted
    requests; the day counter and the decision counter both equal the
    number of accepted requests; the service's decision log holds the
    agent's logged decisions in order, numbered 1, 2, ...; and the daily
    data log has one entry per accepted request, numbered the same way.
    Rejected requests leave no trace. *)
Theorem service_logs_mirror_agent (rs : list Request) :
  let svc := serve_all ProductionAgentService rs in
  let es := events_served rs in
  svc_agent svc = run (IntelligentInventoryAgent 3000 400 1000) es /\
  svc_current_day svc = Z.of_nat (length es) /\
  svc_total_decisions svc = Z.of_nat (length es) /\
  map snd (svc_decision_log svc) = decisions_log (svc_agent svc) /\
  map fst (svc_decision_log svc) = map Z.of_nat (seq 1 (length es)) /\
  map dl_day (svc_daily_data_log svc) = map Z.of_nat (seq 1 (length es)).
Proof.
  cbv zeta. induction rs as [|r rs IH] using rev_ind.
  - repeat split.
  - destruct IH as (Hag & Hday & Hdec & Hlog & Hnum & Hdaily).
    rewrite serve_all_snoc, events_served_snoc.
    destruct (event_of r) as [e|] eqn:E.
    + destruct (serve_accepted (serve_all ProductionAgentService rs) r e E)
        as (sales & _ & ->).
      cbn [svc_agent svc_current_day svc_total_decisions svc_decision_log
             svc_daily_data_log].
      rewrite !map_app, length_app, seq_app, map_app, Hlog, Hnum, Hdaily,
        Hday, Hdec, Hag, run_snoc, step_decisions_log.
      cbn [map length seq fst snd dl_day].
      repeat split; try lia; do 2 f_equal; lia.
    + rewrite (serve_unchanged _ _ E), app_nil_r. repeat split; assumption.
Qed.

(** X28.  Starting from a fresh service, after any sequence of requests the
    costs and the number of orders the service reports are those of its
    agent: the two ledgers, kept separately, never drift apart. *)
Theorem service_costs_agree_with_agent (rs : list Request) :
  let svc := serve_all ProductionAgentService rs in
  sm_total_costs (svc_performance_metrics svc) = total_costs (svc_agent svc) /\
  sm_orders_placed (svc_performance_metrics svc)
  = Z.of_nat (length (orders_placed (svc_agent svc))).
Proof.
  apply (serve_all_invariant
           (fun svc =>
              sm_total_costs (svc_performance_metrics svc)
              = total_costs (svc_agent svc) /\
              sm_orders_placed (svc_performance_metrics svc)
              = Z.of_nat (length (orders_placed (svc_agent svc)))));
    [|split; reflexivity].
  intros svc r e E [Hc Ho].
  destruct (serve_accepted svc r e E) as (sales & _ & ->).
  cbn [svc_agent svc_performance_metrics].
  destruct (update_performance_metrics_counts (svc_performance_metrics svc)
              (svc_current_day svc + 1) (snd (submit (svc_agent svc) e)) sales)
    as (-> & -> & _).
  destruct (step_costs_by_action (svc_agent svc) e) as [-> ->].
  rewrite Hc, Ho. destruct (is_reorder _); split; lia.
Qed.

(** X29.  Starting from a fresh service, after any sequence of requests the
    stockouts the service reports are the logged decisions whose action is
    [stockout]; they never exceed the agent's own stockout counter, since a
    stockout period that reorders is logged as a reorder; and the service
    level stays between 0 and 100. *)
Theorem service_stockouts_undercount (rs : list Request) :
  let svc := serve_all ProductionAgentService rs in
  sm_stockouts (svc_performance_metrics svc)
  = Z.of_nat (length (List.filter is_stockout
                        (decisions_log (svc_agent svc)))) /\
  (sm_stockouts (svc_performance_metrics svc) <= stockouts (svc_agent svc))%Z /\
  0 <= sm_service_level (svc_performance_metrics svc) <= 100.
Proof.
  cbv zeta.
  assert (let svc := serve_all ProductionAgentService rs in
          (sm_stockouts (svc_performance_metrics svc)
           = Z.of_nat (length (List.filter is_stockout
                                 (decisions_log (svc_agent svc)))) /\
           (Z.of_nat (length (List.filter is_stockout
                                (decisions_log (svc_agent svc))))
            <= stockouts (svc_agent svc))%Z) /\
          ((0 <= svc_current_day svc)%Z /\
           (sm_stockouts (svc_performance_metrics svc)
            <= svc_current_day svc)%Z /\
           0 <= sm_service_level (svc_performance_metrics svc) <= 100))
    as [[H1 H2] (_ & _ & H3)].
  { apply (serve_all_invariant
             (fun svc =>
                (sm_stockouts (svc_performance_metrics svc)
                 = Z.of_nat (length (List.filter is_stockout
                                       (decisions_log (svc_agent svc)))) /\
                 (Z.of_nat (length (List.filter is_stockout
                                      (decisions_log (svc_agent svc))))
                  <= stockouts (svc_agent svc))%Z) /\
                ((0 <= svc_current_day svc)%Z /\
                 (sm_stockouts (svc_performance_metrics svc)
                  <= svc_current_day svc)%Z /\
                 0 <= sm_service_level (svc_performance_metrics svc) <= 100)));
      [|cbn; repeat split; try lia; try lra; discriminate].
    intros svc r e E [[Hs Hle] (Hday & Hsd & Hlvl)].
    destruct (serve_accepted svc r e E) as (sales & _ & ->).
    cbn [svc_agent svc_performance_metrics svc_current_day].
    destruct (update_performance_metrics_counts (svc_performance_metrics svc)
                (svc_current_day svc + 1) (snd (submit (svc_agent svc) e))
                sales) as (_ & _ & -> & ->).
    pose proof (step_stockout_actions_invariant (svc_agent svc) e Hle) as Hle'.
    rewrite step_decisions_log in *. rewrite List.filter_app, length_app in *.
    cbn [List.filter] in *.
    replace (0 <? svc_current_day svc + 1)%Z with true
      by (symmetry; apply Z.ltb_lt; lia).
    split; [split; [|exact Hle']|].
    - destruct (is_stockout (snd (submit (svc_agent svc) e)));
        cbn [length]; lia.
    - split; [lia|]. split.
      + destruct (is_stockout (snd (submit (svc_agent svc) e))); lia.
      + apply ratio_percent_bounds.
        * apply inject_Z_nonneg.
          destruct (is_stockout (snd (submit (svc_agent svc) e))); lia.
        * rewrite <- Zle_Qle.
          destruct (is_stockout (snd (submit (svc_agent svc) e))); lia.
        * change 0 with (inject_Z 0). rewrite <- Zlt_Qlt. lia. }
  repeat split; try assumption. lia.
  all: apply H3.
Qed.

(** X30.  The [recent_decisions] of [get_current_state] are the last
    entries of the service's decision log: all of them while there are
    fewer than 10, and exactly the 10 latest from then on. *)
Theorem recent_decisions_are_last_ten (svc : Service) :
  length (recent_decisions svc)
  = Nat.min 10 (length (svc_decision_log svc)) /\
  exists older, svc_decision_log svc = older ++ recent_decisions svc.
Proof.
  unfold recent_decisions, last_n.
  destruct (10 <=? length (svc_decision_log svc))%nat eqn:E.
  - apply Nat.leb_le in E. split.
    + rewrite length_skipn. lia.
    + exists (firstn (length (svc_decision_log svc) - 10)
                (svc_decision_log svc)).
      now rewrite firstn_skipn.
  - apply Nat.leb_gt in E. split; [lia|]. now exists [].
Qed.
